(** * Verification model of the NTFS_Parser MCP server (src/mcp_server.py)

    The tool layer is embedded as functions in a small state/exception
    monad: the state is the part of the machine the tools can observe or
    change (existing paths and the log of calls made into the decoder
    package and the OS), and the environment [env] gives the outcome of
    every such call.  Python exceptions are the constructors of [exn]; all
    of them are subclasses of [Exception]. *)

From Stdlib Require Import List String Ascii ZArith QArith Bool Lia.
Import ListNotations.
Open Scope string_scope.
Set Warnings "-register-all".

(** ** Python values and dicts *)

Inductive pyval : Type :=
| VNone : pyval
| VBool (b : bool) : pyval
| VInt (z : Z) : pyval
| VFloat (q : Q) : pyval
| VStr (s : string) : pyval
| VList (l : list pyval) : pyval
| VDict (d : list (string * pyval)) : pyval.

(** A Python dict keeps insertion order: an association list. *)
Definition pydict := list (string * pyval).

Fixpoint dget (k : string) (d : pydict) : option pyval :=
  match d with
  | [] => None
  | (k', v) :: d' => if String.eqb k k' then Some v else dget k d'
  end.

(** [d[k] = v]: replaces the value in place, or appends a new key. *)
Fixpoint dset (k : string) (v : pyval) (d : pydict) : pydict :=
  match d with
  | [] => [(k, v)]
  | (k', v') :: d' => if String.eqb k k' then (k, v) :: d' else (k', v') :: dset k v d'
  end.

(** Python truthiness of a [str | None] argument. *)
Definition truthy_opt (s : option string) : bool :=
  match s with
  | None => false
  | Some p => negb (String.eqb p "")
  end.

Definition truthy (v : pyval) : bool :=
  match v with
  | VNone => false
  | VBool b => b
  | VInt z => negb (Z.eqb z 0)
  | VFloat q => negb (Qeq_bool q 0)
  | VStr s => negb (String.eqb s "")
  | VList l => match l with [] => false | _ => true end
  | VDict d => match d with [] => false | _ => true end
  end.

Definition failure (msg : string) : pydict :=
  [("success", VBool false); ("error", VStr msg)].

(** ** Decimal rendering of integers (for f-strings) *)

Definition digit_char (n : nat) : ascii := ascii_of_nat (48 + n).

Fixpoint string_of_nat_fuel (fuel n : nat) (acc : string) : string :=
  match fuel with
  | O => acc
  | S f =>
      let acc' := String (digit_char (n mod 10)) acc in
      if Nat.ltb n 10 then acc' else string_of_nat_fuel f (n / 10) acc'
  end.

Definition string_of_nat (n : nat) : string := string_of_nat_fuel (S n) n "".

Definition string_of_Z (z : Z) : string :=
  if Z.ltb z 0 then "-" ++ string_of_nat (Z.to_nat (- z))
  else string_of_nat (Z.to_nat z).

(** ** Paths *)

(** [Path(p)] normalises the empty path to the current directory. *)
Definition norm_path (p : string) : string := if String.eqb p "" then "." else p.

(** [str(Path(d) / n)] *)
Definition pjoin (d n : string) : string :=
  let d' := norm_path d in
  if String.eqb d' "." then n else d' ++ "/" ++ n.

(** ** Exceptions, state and the monad *)

Inductive exn : Type :=
| ImportError (msg : string) : exn
| OSError (msg : string) : exn
| OtherError (msg : string) : exn.

(** [str(e)] *)
Definition exn_str (e : exn) : string :=
  match e with ImportError m | OSError m | OtherError m => m end.

Inductive res (A : Type) : Type :=
| Ok (a : A) : res A
| Raise (e : exn) : res A.
Arguments Ok {A} a.
Arguments Raise {A} e.

Inductive artifact : Type := MFT_art | LogFile_art | UsnJrnl_art.

Record Partition := mkPartition { part_offset : Z; part_cluster_size : Z }.

(** Calls from the tool layer into the decoder package ([src.*], the
    sibling NTFS_Parser package) and into the OS. *)
Inductive call : Type :=
| CMkdir (dir : string)
| CMFTParser (input : string)
| CParseMFT (input output : string) (include_deleted : bool) (fmt : string) (include_path : bool)
| CStat (input : string)
| CParseUsn (input output : string) (mft_path : option string) (fmt : string) (include_path : bool)
| CParseLog (input output : string) (fmt : string)
| COpenImage (image : string)
| CExtractor (p : Partition)
| CExtract (p : Partition) (a : artifact) (dest : string) (verbose : option bool)
| CRmtree (dir : string)
| CAnalyzer (output_dir : string)
| CAnalyzeAll (mft logfile usnjrnl : option string) (fmt : string).

Record world := mkWorld {
  w_files : list string;   (** paths that exist *)
  w_denied : list string;  (** paths whose [stat] fails with a permission error *)
  w_calls : list call      (** calls made so far, oldest first *)
}.

Record env := mkEnv {
  e_import : string -> option exn;           (** [from src.<m> import ...] *)
  e_call : call -> res pyval;                (** outcome of a call *)
  e_partitions : string -> res (list Partition);  (** find_ntfs_partitions *)
  e_contents : string -> list Byte.byte;     (** bytes of an input file *)
  e_elapsed : Q                              (** measured elapsed seconds *)
}.

Definition M (A : Type) : Type := world -> res A * world.

Definition ret {A} (a : A) : M A := fun w => (Ok a, w).

Definition bind {A B} (m : M A) (k : A -> M B) : M B :=
  fun w => match m w with
           | (Ok a, w') => k a w'
           | (Raise e, w') => (Raise e, w')
           end.

Definition throw {A} (e : exn) : M A := fun w => (Raise e, w).

(** [try: m except Exception as e: h e] *)
Definition try_except {A} (m : M A) (h : exn -> M A) : M A :=
  fun w => match m w with
           | (Raise e, w') => h e w'
           | r => r
           end.

(** [try: m except ImportError as e: hi e except Exception as e: h e] *)
Definition try_except2 {A} (m : M A) (hi : exn -> M A) (h : exn -> M A) : M A :=
  try_except m (fun e => match e with ImportError _ => hi e | _ => h e end).

Notation "x <- m ;; k" := (bind m (fun x => k))
  (at level 61, m at next level, right associativity).
Notation "m ;;; k" := (bind m (fun _ => k)) (at level 61, right associativity).

Definition add_file (p : string) (w : world) : world :=
  mkWorld (if existsb (String.eqb p) (w_files w) then w_files w else (w_files w ++ [p])%list)
          (w_denied w) (w_calls w).

Definition log_call (c : call) (w : world) : world :=
  mkWorld (w_files w) (w_denied w) (w_calls w ++ [c])%list.

Definition is_prefix_dir (dir p : string) : bool :=
  String.eqb p dir || String.prefix (dir ++ "/") p.

Definition remove_tree (dir : string) (w : world) : world :=
  mkWorld (filter (fun p => negb (is_prefix_dir dir p)) (w_files w)) (w_denied w) (w_calls w).

(** What a successful call leaves behind on disk. *)
Definition call_effect (c : call) (v : pyval) : world -> world :=
  match c with
  | CMkdir d => add_file (norm_path d)
  | CParseMFT _ out _ _ _ | CParseUsn _ out _ _ _ | CParseLog _ out _ => add_file out
  | CExtract _ _ dest _ => if truthy v then add_file dest else fun w => w
  | CRmtree d => remove_tree d
  | _ => fun w => w
  end.

Section Tools.

Variable E : env.

(** [from src.<m> import ...] *)
Definition py_import (m : string) : M unit :=
  fun w => match e_import E m with
           | Some e => (Raise e, w)
           | None => (Ok tt, w)
           end.

(** Performs a call: it is logged, then either raises or returns a value
    and takes its effect. *)
Definition invoke (c : call) : M pyval :=
  fun w => let w1 := log_call c w in
           match e_call E c with
           | Ok v => (Ok v, call_effect c v w1)
           | Raise e => (Raise e, w1)
           end.

(** [Path(p).exists()]: [stat] errors other than "not found" propagate. *)
Definition path_exists (p : string) : M bool :=
  fun w => let p' := norm_path p in
           if existsb (String.eqb p') (w_denied w)
           then (Raise (OSError ("[Errno 13] Permission denied: '" ++ p' ++ "'")), w)
           else (Ok (existsb (String.eqb p') (w_files w)), w).

Definition elapsed : M Q := ret (e_elapsed E).

Definition in_formats (fmt : string) (fmts : list string) : bool :=
  existsb (String.eqb fmt) fmts.

Definition mft_formats := ["csv"; "json"; "sqlite"].
Definition logfile_formats := ["csv"; "json"].

(** Record size used by [MFTParser] on an extracted $MFT file. *)
Definition mft_record_size : nat := 1024.

(** Modelled from the spec: [MFTParser.get_total_entries] of the decoder
    package (src/mft_parser.py, not in this repository's sources): buffer
    length divided by the fixed record size. *)
Definition get_total_entries (buf : list Byte.byte) : Z :=
  Z.of_nat (List.length buf / mft_record_size)%nat.

(** [parse_mft] (mcp_server.py lines 19-60) *)
Definition parse_mft (input_path output_path output_format : string)
    (active_only include_path : bool) : M pydict :=
  py_import "mft_parser" ;;;
  ex <- path_exists input_path ;;
  if negb ex then ret (failure ("Input file not found: " ++ input_path)) else
  if negb (in_formats output_format mft_formats)
  then ret (failure ("Invalid format: " ++ output_format ++ ". Use csv, json, or sqlite")) else
  try_except
    (invoke (CMFTParser input_path) ;;;
     let total := get_total_entries (e_contents E input_path) in
     invoke (CParseMFT input_path output_path (negb active_only) output_format include_path) ;;;
     el <- elapsed ;;
     ret [("success", VBool true); ("total_entries", VInt total);
          ("elapsed_seconds", VFloat el); ("output_path", VStr output_path);
          ("format", VStr output_format)])
    (fun e => ret (failure (exn_str e))).

(** The defaults [output_format="csv"], [active_only=False],
    [include_path=True]. *)
Definition parse_mft_default (input_path output_path : string) : M pydict :=
  parse_mft input_path output_path "csv" false true.

(** [parse_usnjrnl] (lines 63-116) *)
Definition parse_usnjrnl (input_path output_path output_format : string)
    (mft_path : option string) : M pydict :=
  py_import "usnjrnl_parser" ;;;
  ex <- path_exists input_path ;;
  if negb ex then ret (failure ("Input file not found: " ++ input_path)) else
  mft_ok <- (match mft_path with
             | Some p => if truthy_opt mft_path then path_exists p else ret true
             | None => ret true
             end) ;;
  if negb mft_ok
  then ret (failure ("MFT file not found: " ++ match mft_path with Some p => p | None => "" end)) else
  if negb (in_formats output_format mft_formats)
  then ret (failure ("Invalid format: " ++ output_format ++ ". Use csv, json, or sqlite")) else
  try_except
    (st <- invoke (CStat input_path) ;;
     let size := match st with VInt z => z | _ => 0%Z end in
     invoke (CParseUsn input_path output_path mft_path output_format (truthy_opt mft_path)) ;;;
     el <- elapsed ;;
     ret [("success", VBool true); ("file_size_mb", VFloat (inject_Z size / inject_Z 1048576));
          ("elapsed_seconds", VFloat el); ("output_path", VStr output_path);
          ("format", VStr output_format);
          ("path_resolution", VBool (truthy_opt mft_path))])
    (fun e => ret (failure (exn_str e))).

(** [parse_logfile] (lines 119-148) *)
Definition parse_logfile (input_path output_path output_format : string) : M pydict :=
  py_import "logfile_parser" ;;;
  ex <- path_exists input_path ;;
  if negb ex then ret (failure ("Input file not found: " ++ input_path)) else
  if negb (in_formats output_format logfile_formats)
  then ret (failure ("Invalid format: " ++ output_format ++ ". LogFile supports csv or json only")) else
  try_except
    (invoke (CParseLog input_path output_path output_format) ;;;
     el <- elapsed ;;
     ret [("success", VBool true); ("elapsed_seconds", VFloat el);
          ("output_path", VStr output_path); ("format", VStr output_format)])
    (fun e => ret (failure (exn_str e))).


(** [find_ntfs_partitions(image)] *)
Definition find_partitions (image_path : string) : M (list Partition) :=
  fun w => (e_partitions E image_path, w).

Fixpoint enumerate_from (i : Z) (l : list Partition) : list (Z * Partition) :=
  match l with
  | [] => []
  | p :: l' => (i, p) :: enumerate_from (i + 1) l'
  end.

(** [partitions_to_process]: [None] when the requested index is out of range. *)
Definition select_partitions (partition : option Z) (parts : list Partition)
    : option (list (Z * Partition)) :=
  match partition with
  | None => Some (enumerate_from 0 parts)
  | Some k =>
      if (k <? 0)%Z || (k >=? Z.of_nat (List.length parts))%Z then None
      else match nth_error parts (Z.to_nat k) with
           | Some p => Some [(k, p)]
           | None => None
           end
  end.

Definition part_name (i : Z) (suffix : string) : string :=
  "partition" ++ string_of_Z i ++ suffix.

(** Body of the partition loop of [extract_from_image] (lines 179-204). *)
Definition extract_one (output_dir : string) (verbose : bool) (i : Z) (p : Partition)
    : M pyval :=
  invoke (CExtractor p) ;;;
  let mft_path := pjoin output_dir (part_name i "_MFT") in
  r1 <- invoke (CExtract p MFT_art mft_path None) ;;
  let ex1 := if truthy r1 then dset "mft" (VStr mft_path) [] else [] in
  let logfile_path := pjoin output_dir (part_name i "_LogFile") in
  r2 <- invoke (CExtract p LogFile_art logfile_path None) ;;
  let ex2 := if truthy r2 then dset "logfile" (VStr logfile_path) ex1 else ex1 in
  let usnjrnl_path := pjoin output_dir (part_name i "_UsnJrnl_J") in
  r3 <- invoke (CExtract p UsnJrnl_art usnjrnl_path (Some verbose)) ;;
  let ex3 := if truthy r3 then dset "usnjrnl" (VStr usnjrnl_path) ex2 else ex2 in
  ret (VDict [("partition", VInt i); ("offset", VInt (part_offset p));
              ("cluster_size", VInt (part_cluster_size p)); ("extracted", VDict ex3)]).

Fixpoint extract_loop (output_dir : string) (verbose : bool)
    (todo : list (Z * Partition)) (acc : list pyval) : M (list pyval) :=
  match todo with
  | [] => ret acc
  | (i, p) :: rest =>
      pr <- extract_one output_dir verbose i p ;;
      extract_loop output_dir verbose rest (acc ++ [pr])%list
  end.

(** [extract_from_image] (lines 151-212) *)
Definition extract_from_image (image_path output_dir : string) (partition : option Z)
    (verbose : bool) : M pydict :=
  py_import "image_handler" ;;;
  ex <- path_exists image_path ;;
  if negb ex then ret (failure ("Image file not found: " ++ image_path)) else
  try_except2
    (invoke (CMkdir output_dir) ;;;
     invoke (COpenImage image_path) ;;;
     parts <- find_partitions image_path ;;
     match select_partitions partition parts with
     | None =>
         ret (failure ("Invalid partition: " ++ string_of_Z (match partition with Some k => k | None => 0%Z end)
                       ++ " (valid: 0-" ++ string_of_Z (Z.of_nat (List.length parts) - 1) ++ ")"))
     | Some todo =>
         prs <- extract_loop output_dir verbose todo [] ;;
         ret [("success", VBool true); ("partitions", VList prs);
              ("total_partitions", VInt (Z.of_nat (List.length parts)))]
     end)
    (fun e => ret (failure ("Missing dependency: " ++ exn_str e
                            ++ ". For E01 support, install: pip install pyewf-python")))
    (fun e => ret (failure (exn_str e))).

(** The MFT block of the partition loop of [extract_and_analyze]
    (lines 265-279); [a0] is the partition's "analyzed" dict. *)
Definition analyze_mft_step (output_path output_format ext : string) (skip_mft : bool)
    (i : Z) (p : Partition) (mft_temp_path : string) (a0 : pydict) : M pydict :=
  if skip_mft then ret a0 else
  let mft_output := pjoin output_path (part_name i ("_MFT" ++ ext)) in
  r <- invoke (CExtract p MFT_art mft_temp_path None) ;;
  if truthy r then
    try_except
      (invoke (CParseMFT mft_temp_path mft_output true output_format true) ;;;
       ret (dset "mft" (VStr mft_output) a0))
      (fun e => ret (dset "mft_error" (VStr (exn_str e)) a0))
  else ret a0.

(** The UsnJrnl block (lines 281-297). *)
Definition analyze_usnjrnl_step (output_path temp_dir output_format ext : string)
    (skip_mft skip_usnjrnl : bool) (i : Z) (p : Partition) (mft_temp_path : string)
    (a1 : pydict) : M pydict :=
  if skip_usnjrnl then ret a1 else
  let usnjrnl_temp := pjoin temp_dir (part_name i "_UsnJrnl_J") in
  let usnjrnl_output := pjoin output_path (part_name i ("_UsnJrnl" ++ ext)) in
  r <- invoke (CExtract p UsnJrnl_art usnjrnl_temp None) ;;
  if truthy r then
    try_except
      (mft_ex <- (if skip_mft then ret false else path_exists mft_temp_path) ;;
       let mft_for_path := if mft_ex then Some mft_temp_path else None in
       invoke (CParseUsn usnjrnl_temp usnjrnl_output mft_for_path output_format
                         (truthy_opt mft_for_path)) ;;;
       ret (dset "usnjrnl" (VStr usnjrnl_output) a1))
      (fun e => ret (dset "usnjrnl_error" (VStr (exn_str e)) a1))
  else ret a1.

(** The LogFile block (lines 299-310): a sqlite run writes the LogFile as csv. *)
Definition analyze_logfile_step (output_path temp_dir output_format ext : string)
    (skip_logfile : bool) (i : Z) (p : Partition) (a2 : pydict) : M pydict :=
  if skip_logfile then ret a2 else
  let logfile_temp := pjoin temp_dir (part_name i "_LogFile") in
  let logfile_format := if String.eqb output_format "sqlite" then "csv" else output_format in
  let logfile_ext := if String.eqb output_format "sqlite" then ".csv" else ext in
  let logfile_output := pjoin output_path (part_name i ("_LogFile" ++ logfile_ext)) in
  r <- invoke (CExtract p LogFile_art logfile_temp None) ;;
  if truthy r then
    try_except
      (invoke (CParseLog logfile_temp logfile_output logfile_format) ;;;
       ret (dset "logfile" (VStr logfile_output) a2))
      (fun e => ret (dset "logfile_error" (VStr (exn_str e)) a2))
  else ret a2.

(** Body of the partition loop of [extract_and_analyze] (lines 259-312). *)
Definition analyze_one (output_path temp_dir output_format ext : string)
    (skip_mft skip_usnjrnl skip_logfile : bool) (i : Z) (p : Partition) : M pyval :=
  invoke (CExtractor p) ;;;
  let mft_temp_path := pjoin temp_dir (part_name i "_MFT") in
  a1 <- analyze_mft_step output_path output_format ext skip_mft i p mft_temp_path [] ;;
  a2 <- analyze_usnjrnl_step output_path temp_dir output_format ext skip_mft skip_usnjrnl
                             i p mft_temp_path a1 ;;
  a3 <- analyze_logfile_step output_path temp_dir output_format ext skip_logfile i p a2 ;;
  ret (VDict [("partition", VInt i); ("analyzed", VDict a3)]).

Fixpoint analyze_loop (output_path temp_dir output_format ext : string)
    (skip_mft skip_usnjrnl skip_logfile : bool)
    (todo : list (Z * Partition)) (acc : list pyval) : M (list pyval) :=
  match todo with
  | [] => ret acc
  | (i, p) :: rest =>
      pr <- analyze_one output_path temp_dir output_format ext skip_mft skip_usnjrnl skip_logfile i p ;;
      analyze_loop output_path temp_dir output_format ext skip_mft skip_usnjrnl skip_logfile rest (acc ++ [pr])%list
  end.

(** [extract_and_analyze] (lines 215-332) *)
Definition extract_and_analyze (image_path output_dir output_format : string)
    (partition : option Z) (skip_mft skip_usnjrnl skip_logfile keep_temp : bool) : M pydict :=
  py_import "image_handler" ;;;
  py_import "mft_parser" ;;;
  py_import "usnjrnl_parser" ;;;
  py_import "logfile_parser" ;;;
  ex <- path_exists image_path ;;
  if negb ex then ret (failure ("Image file not found: " ++ image_path)) else
  if negb (in_formats output_format mft_formats)
  then ret (failure ("Invalid format: " ++ output_format)) else
  try_except2
    (let output_path := norm_path output_dir in
     invoke (CMkdir output_path) ;;;
     let temp_dir := pjoin output_path "temp_extracted" in
     invoke (CMkdir temp_dir) ;;;
     invoke (COpenImage image_path) ;;;
     parts <- find_partitions image_path ;;
     match select_partitions partition parts with
     | None =>
         ret (failure ("Invalid partition: " ++ string_of_Z (match partition with Some k => k | None => 0%Z end)))
     | Some todo =>
         let ext := if String.eqb output_format "sqlite" then ".db" else "." ++ output_format in
         prs <- analyze_loop output_path temp_dir output_format ext
                             skip_mft skip_usnjrnl skip_logfile todo [] ;;
         cleaned <- (if keep_temp then ret [] else
                     try_except (invoke (CRmtree temp_dir) ;;; ret [("temp_cleaned", VBool true)])
                                (fun _ => ret [("temp_cleaned", VBool false)])) ;;
         el <- elapsed ;;
         ret ([("success", VBool true); ("partitions", VList prs)] ++ cleaned
              ++ [("elapsed_seconds", VFloat el); ("output_dir", VStr output_path)])%list
     end)
    (fun e => ret (failure ("Missing dependency: " ++ exn_str e)))
    (fun e => ret (failure (exn_str e))).

Definition opt_val (s : option string) : pyval :=
  match s with Some p => VStr p | None => VNone end.

(** The existence loop of [analyze_artifacts] (lines 350-352). *)
Fixpoint check_inputs (l : list (option string * string)) : M (option string) :=
  match l with
  | [] => ret None
  | (path, name) :: l' =>
      match path with
      | Some p =>
          if truthy_opt path then
            ex <- path_exists p ;;
            if negb ex then ret (Some (name ++ " file not found: " ++ p)) else check_inputs l'
          else check_inputs l'
      | None => check_inputs l'
      end
  end.

(** [analyze_artifacts] (lines 335-382) *)
Definition analyze_artifacts (output_dir output_format : string)
    (mft_path usnjrnl_path logfile_path : option string) : M pydict :=
  py_import "analyzer" ;;;
  if negb (truthy_opt mft_path || truthy_opt usnjrnl_path || truthy_opt logfile_path)
  then ret (failure "At least one input file required (mft_path, usnjrnl_path, or logfile_path)") else
  c <- check_inputs [(mft_path, "MFT"); (usnjrnl_path, "UsnJrnl"); (logfile_path, "LogFile")] ;;
  match c with
  | Some msg => ret (failure msg)
  | None =>
      if negb (in_formats output_format mft_formats)
      then ret (failure ("Invalid format: " ++ output_format)) else
      try_except
        (invoke (CAnalyzer output_dir) ;;;
         result_path <- invoke (CAnalyzeAll mft_path logfile_path usnjrnl_path output_format) ;;
         el <- elapsed ;;
         ret [("success", VBool true); ("elapsed_seconds", VFloat el);
              ("output_path", result_path); ("format", VStr output_format);
              ("inputs", VDict [("mft", opt_val mft_path); ("usnjrnl", opt_val usnjrnl_path);
                                ("logfile", opt_val logfile_path)])])
        (fun e => ret (failure (exn_str e)))
  end.

End Tools.

Definition VERSION : string := "1.0.0".

(** [get_info] (lines 385-403) *)
Definition get_info : pydict :=
  [("name", VStr "NTFS Forensic Parser"); ("version", VStr VERSION);
   ("author", VStr "amier-ge");
   ("description", VStr "MFT / LogFile / UsnJrnl:$J Analysis Tool");
   ("capabilities", VList [VStr "parse_mft - Parse $MFT (Master File Table)";
                           VStr "parse_usnjrnl - Parse $UsnJrnl:$J (USN Journal)";
                           VStr "parse_logfile - Parse $LogFile (Transaction Log)";
                           VStr "extract_from_image - Extract artifacts from E01/RAW disk images";
                           VStr "extract_and_analyze - One-step extraction and analysis";
                           VStr "analyze_artifacts - Unified analysis of multiple artifacts"]);
   ("supported_formats", VList [VStr "csv"; VStr "json"; VStr "sqlite"]);
   ("supported_images", VList [VStr "E01"; VStr "RAW"]);
   ("timezone", VStr "UTC+9 (KST)")].

(** ** The MFT decoder

    Modelled from the spec: the record-level decoder of the decoder package
    (src/mft_parser.py: [MFTParser] and [parse_mft_file], not in this
    repository's sources), following spec section 4.2: a single pass with a
    fixed stride over the buffer; a slot whose magic is not "FILE" is
    flagged unallocated/corrupt, a slot whose update-sequence fixup does not
    match is flagged corrupted; the stream never stops on a bad slot.  The
    header fields of the record are decoded; the attribute chain is not
    needed by the properties below. *)
Module MFTDecoder.
Local Open Scope nat_scope.

Inductive slot_status := Valid | Corrupted | UnallocatedOrCorrupt.

Record mft_record := mkRecord {
  entry : nat;
  status : slot_status;
  sequence_number : Z;
  in_use : bool;
  is_directory : bool
}.

Definition byte_at (b : list Byte.byte) (k : nat) : Z :=
  match nth_error b k with
  | Some x => Z.of_N (Byte.to_N x)
  | None => 0%Z
  end.

Definition le16 (b : list Byte.byte) (k : nat) : Z :=
  (byte_at b k + 256 * byte_at b (S k))%Z.

Definition file_magic : list Byte.byte := [Byte.x46; Byte.x49; Byte.x4c; Byte.x45].

Fixpoint bytes_eqb (a b : list Byte.byte) : bool :=
  match a, b with
  | [], [] => true
  | x :: a', y :: b' => Byte.eqb x y && bytes_eqb a' b'
  | _, _ => false
  end.

Definition sector_size : nat := 512.

(** Each sector's trailing two bytes must equal the update sequence number. *)
Definition fixup_ok (slot : list Byte.byte) : bool :=
  let usa_offset := Z.to_nat (le16 slot 4) in
  let usa_count := Z.to_nat (le16 slot 6) in
  let usn := le16 slot usa_offset in
  forallb (fun j => Z.eqb (le16 slot (j * sector_size - 2)) usn) (seq 1 (usa_count - 1)).

Definition decode_slot (n : nat) (slot : list Byte.byte) : mft_record :=
  if negb (bytes_eqb (firstn 4 slot) file_magic)
  then mkRecord n UnallocatedOrCorrupt 0 false false
  else
    let flags := le16 slot 22 in
    mkRecord n (if fixup_ok slot then Valid else Corrupted)
             (le16 slot 16) (Z.testbit flags 0) (Z.testbit flags 1).

(** The forward pass: slot [off / rs] starts at byte [off]. *)
Fixpoint parse_from (fuel : nat) (rs off : nat) (buf : list Byte.byte) : list mft_record :=
  match fuel with
  | O => []
  | S f =>
      if off + rs <=? List.length buf
      then decode_slot (off / rs) (firstn rs (skipn off buf)) :: parse_from f rs (off + rs) buf
      else []
  end.

Definition parse (buf : list Byte.byte) : list mft_record :=
  parse_from (List.length buf) mft_record_size 0 buf.

(** [include_deleted] filters the decoded stream. *)
Definition parse_mft_file_records (buf : list Byte.byte) (include_deleted : bool)
    : list mft_record :=
  filter (fun r => include_deleted || in_use r) (parse buf).

(** The slot [n] of a buffer. *)
Definition slot (buf : list Byte.byte) (n : nat) : list Byte.byte :=
  firstn mft_record_size (skipn (n * mft_record_size) buf).

End MFTDecoder.

(** ** The USN journal path join

    Modelled from the spec: the optional MFT join of the USN decoder
    (src/usnjrnl_parser.py, not in this repository's sources), spec
    section 4.3 and the path resolution of 4.2: the parent reference of a
    journal record is looked up in the MFT index; a missing match gives a
    name-only record; the parent chain is followed to the root entry 5 with
    a depth cap of 64. *)
Module UsnJoin.

Record file_ref := mkRef { ref_entry : Z; ref_seq : Z }.

Record usn_record := mkUsn {
  usn_file_ref : file_ref;
  usn_parent_ref : file_ref;
  usn_value : Z;
  usn_reason : Z;
  usn_name : string
}.

Record index_entry := mkEntry { ie_seq : Z; ie_name : string; ie_parent : Z }.

Definition mft_index := list (Z * index_entry).

Fixpoint lookup (k : Z) (idx : mft_index) : option index_entry :=
  match idx with
  | [] => None
  | (k', e) :: idx' => if Z.eqb k k' then Some e else lookup k idx'
  end.

Definition root_entry : Z := 5.
Definition depth_cap : nat := 64.

(** Path of a directory entry, [None] on a missing link or at the cap. *)
Fixpoint dir_path (idx : mft_index) (fuel : nat) (n : Z) : option string :=
  if Z.eqb n root_entry then Some "" else
  match fuel with
  | O => None
  | S f =>
      match lookup n idx with
      | None => None
      | Some e =>
          match dir_path idx f (ie_parent e) with
          | Some pp => Some (pp ++ "\" ++ ie_name e)
          | None => None
          end
      end
  end.

Record usn_out := mkOut { out_record : usn_record; out_path : option string }.

(** Whether a file reference matches the index: its entry is there and
    carries the same sequence number. *)
Definition ref_match (idx : mft_index) (fr : file_ref) : bool :=
  match lookup (ref_entry fr) idx with
  | Some e => Z.eqb (ie_seq e) (ref_seq fr)
  | None => false
  end.

(** Path of a matching reference's entry. *)
Definition resolve_ref (idx : mft_index) (fr : file_ref) : option string :=
  if ref_match idx fr then dir_path idx depth_cap (ref_entry fr) else None.

(** The record's file reference is looked up first (the path of its own
    entry), then its parent reference (the parent's path and the record's
    name); with no match the record is kept, name only. *)
Definition join (idx : mft_index) (r : usn_record) : usn_out :=
  match resolve_ref idx (usn_file_ref r) with
  | Some p => mkOut r (Some p)
  | None =>
      match resolve_ref idx (usn_parent_ref r) with
      | Some pp => mkOut r (Some (pp ++ "\" ++ usn_name r))
      | None => mkOut r None
      end
  end.

(** Without an MFT index no path is attached. *)
Definition decode (idx : option mft_index) (recs : list usn_record) : list usn_out :=
  match idx with
  | Some i => map (join i) recs
  | None => map (fun r => mkOut r None) recs
  end.

End UsnJoin.

(** ** A sample environment

    Two NTFS partitions; every extraction finds its artifact; the MFT
    decoder raises; every other call succeeds. *)
Definition demo_env : env :=
  mkEnv (fun _ => None)
        (fun c => match c with
                  | CExtract _ _ _ _ => Ok (VBool true)
                  | CAnalyzeAll _ _ _ _ => Ok (VStr "out/timeline.csv")
                  | CParseMFT _ _ _ _ _ => Raise (OtherError "bad MFT")
                  | CStat _ => Ok (VInt 2097152)
                  | _ => Ok VNone
                  end)
        (fun _ => Ok [mkPartition 1048576 4096; mkPartition 5242880 4096])
        (fun _ => repeat Byte.x00 2048)
        1.

Definition demo_world : world :=
  mkWorld ["."; "disk.E01"; "MFT"; "UsnJrnl_J"; "LogFile"] [] [].

(** The sample environment without the decoder package on the module
    path: every [from src.<m> import ...] fails. *)
Definition no_package_env : env :=
  mkEnv (fun m => Some (ImportError ("No module named 'src." ++ m ++ "'")))
        (e_call demo_env) (e_partitions demo_env) (e_contents demo_env) (e_elapsed demo_env).

(** The sample environment without the forensic-container codec: opening
    the image raises [ImportError]; everything else is as in [demo_env]. *)
Definition no_codec_env : env :=
  mkEnv (e_import demo_env)
        (fun c => match c with
                  | COpenImage _ => Raise (ImportError "No module named 'pyewf'")
                  | _ => e_call demo_env c
                  end)
        (e_partitions demo_env) (e_contents demo_env) (e_elapsed demo_env).

(** A sample extracted $MFT of two slots: slot 0 is an in-use "FILE"
    record (update sequence array at offset 0x30 with 3 entries, update
    sequence number 1 at the end of both sectors, sequence number 1,
    flags 1); slot 1 is all zeros. *)
Definition sample_mft : list Byte.byte :=
  ([Byte.x46; Byte.x49; Byte.x4c; Byte.x45; Byte.x30; Byte.x00; Byte.x03; Byte.x00]
   ++ repeat Byte.x00 8 ++ [Byte.x01; Byte.x00] ++ repeat Byte.x00 4
   ++ [Byte.x01; Byte.x00] ++ repeat Byte.x00 24 ++ [Byte.x01; Byte.x00]
   ++ repeat Byte.x00 460 ++ [Byte.x01; Byte.x00]
   ++ repeat Byte.x00 510 ++ [Byte.x01; Byte.x00]
   ++ repeat Byte.x00 1024)%list.

(** ** Predicates used by the properties *)

(** The shape every tool result should have: a dict with a boolean
    [success] key, and a failure carries [{success: False, error: msg}]. *)
Definition result_shape (d : pydict) : Prop :=
  exists b, dget "success" d = Some (VBool b) /\ (b = false -> exists msg, d = failure msg).

(** Calls that read the disk image (the forensic-container codec is
    needed here). *)
Definition image_call (c : call) : Prop :=
  match c with
  | COpenImage _ | CExtractor _ | CExtract _ _ _ _ => True
  | _ => False
  end.

(** Two environments that differ at most in how the image is handled. *)
Definition same_but_image (E1 E2 : env) : Prop :=
  e_import E1 = e_import E2 /\
  (forall c, ~ image_call c -> e_call E1 c = e_call E2 c) /\
  e_contents E1 = e_contents E2 /\ e_elapsed E1 = e_elapsed E2.

(** The [include_deleted] flag of every MFT decoder call. *)
Definition mft_call_include_deleted (b : bool) (c : call) : Prop :=
  match c with
  | CParseMFT _ _ inc _ _ => inc = b
  | _ => True
  end.

(** Every run from a state returns a value satisfying [Q]. *)
Definition total {A} (Q : A -> Prop) (m : M A) : Prop :=
  forall w, exists a, fst (m w) = Ok a /\ Q a.

(** Every value [m] returns satisfies [Q] (it may also raise). *)
Definition ok_sat {A} (Q : A -> Prop) (m : M A) : Prop :=
  forall w, match fst (m w) with Ok a => Q a | Raise _ => True end.


(** [Path(p).exists()] as a predicate on the state. *)
Definition file_exists (w : world) (p : string) : bool :=
  existsb (String.eqb (norm_path p)) (w_files w).

(** The tool returned a failure dict and left the state as it was: no call
    was made and no file was created. *)
Definition rejected (r : res pydict * world) (w : world) : Prop :=
  exists msg, r = (Ok (failure msg), w).

(** Whether [mft_path] passes the check of [parse_usnjrnl]. *)
Definition mft_path_found (w : world) (mft_path : option string) : bool :=
  match mft_path with
  | Some p => file_exists w p
  | None => true
  end.

(** [m] preserves a property of every logged call. *)
Definition keeps {A} (P : call -> Prop) (m : M A) : Prop :=
  forall w, Forall P (w_calls w) -> Forall P (w_calls (snd (m w))).

(** A supplied input passes the existence loop of [analyze_artifacts]. *)
Definition supplied_found (w : world) (o : option string) : bool :=
  match o with
  | Some p => String.eqb p "" || file_exists w p
  | None => true
  end.

Definition ends_with (s suffix : string) : Prop := exists pre, s = pre ++ suffix.

(** The decoder calls of an [output_format="sqlite"] run: MFT and UsnJrnl
    go to sqlite files ending in .db, the LogFile to a csv file. *)
Definition sqlite_run_call (c : call) : Prop :=
  match c with
  | CParseMFT _ out _ fmt _ => fmt = "sqlite" /\ ends_with out ".db"
  | CParseUsn _ out _ fmt _ => fmt = "sqlite" /\ ends_with out ".db"
  | CParseLog _ out fmt => fmt = "csv" /\ ends_with out ".csv"
  | _ => True
  end.

(** Whether an extract call of the partition loop found its artifact: it
    returned a truthy value. *)
Definition extracted (E : env) (c : call) : bool :=
  match e_call E c with Ok v => truthy v | Raise _ => false end.

(** Every [NTFSExtractor(part)] is built, and every [extract_*] call
    returns (found or not) rather than raising. *)
Definition extractor_returns (E : env) : Prop :=
  (forall p, exists v, e_call E (CExtractor p) = Ok v) /\
  (forall p a dest verb, exists v, e_call E (CExtract p a dest verb) = Ok v).

(** The key an extracted artifact is recorded under. *)
Definition found_slot (b : bool) (dest : string) : option pyval :=
  if b then Some (VStr dest) else None.

(** One entry of the "partitions" list of [extract_from_image]: each
    artifact's key holds its destination exactly when it was found. *)
Definition extracted_entry (E : env) (od : string) (verbose : bool)
    (ip : Z * Partition) (e : pyval) : Prop :=
  let (i, p) := ip in
  let mft_path := pjoin od (part_name i "_MFT") in
  let logfile_path := pjoin od (part_name i "_LogFile") in
  let usnjrnl_path := pjoin od (part_name i "_UsnJrnl_J") in
  exists ex,
    e = VDict [("partition", VInt i); ("offset", VInt (part_offset p));
               ("cluster_size", VInt (part_cluster_size p)); ("extracted", VDict ex)] /\
    dget "mft" ex = found_slot (extracted E (CExtract p MFT_art mft_path None)) mft_path /\
    dget "logfile" ex = found_slot (extracted E (CExtract p LogFile_art logfile_path None))
                                   logfile_path /\
    dget "usnjrnl" ex = found_slot (extracted E (CExtract p UsnJrnl_art usnjrnl_path
                                                          (Some verbose))) usnjrnl_path.

(** The decoder outcome of one artifact of [extract_and_analyze]: [None]
    when it is skipped or its extract call did not find it. *)
Definition attempt (skip found : bool) (r : res pyval) : option (res pyval) :=
  if skip then None else if found then Some r else None.

(** One artifact's slot of the "analyzed" dict: the output path on a
    decoder success, only the error string on a decoder exception, neither
    when it was not attempted. *)
Definition slot_state (an : pydict) (key out : string) (r : option (res pyval)) : Prop :=
  match r with
  | None => dget key an = None /\ dget (key ++ "_error") an = None
  | Some (Ok _) => dget key an = Some (VStr out) /\ dget (key ++ "_error") an = None
  | Some (Raise e) => dget key an = None /\ dget (key ++ "_error") an = Some (VStr (exn_str e))
  end.

(** One entry of the "partitions" list of [extract_and_analyze]; the
    UsnJrnl decoder is given the partition's extracted $MFT or [None]. *)
Definition analyzed_entry (E : env) (op td fmt ext : string) (sm su sl : bool)
    (ip : Z * Partition) (e : pyval) : Prop :=
  let (i, p) := ip in
  let mft_temp := pjoin td (part_name i "_MFT") in
  let mft_output := pjoin op (part_name i ("_MFT" ++ ext)) in
  let usnjrnl_temp := pjoin td (part_name i "_UsnJrnl_J") in
  let usnjrnl_output := pjoin op (part_name i ("_UsnJrnl" ++ ext)) in
  let logfile_temp := pjoin td (part_name i "_LogFile") in
  let logfile_format := if String.eqb fmt "sqlite" then "csv" else fmt in
  let logfile_ext := if String.eqb fmt "sqlite" then ".csv" else ext in
  let logfile_output := pjoin op (part_name i ("_LogFile" ++ logfile_ext)) in
  exists an,
    e = VDict [("partition", VInt i); ("analyzed", VDict an)] /\
    slot_state an "mft" mft_output
      (attempt sm (extracted E (CExtract p MFT_art mft_temp None))
               (e_call E (CParseMFT mft_temp mft_output true fmt true))) /\
    (exists mft_for_path, (mft_for_path = None \/ mft_for_path = Some mft_temp) /\
      slot_state an "usnjrnl" usnjrnl_output
        (attempt su (extracted E (CExtract p UsnJrnl_art usnjrnl_temp None))
                 (e_call E (CParseUsn usnjrnl_temp usnjrnl_output mft_for_path fmt
                                      (truthy_opt mft_for_path))))) /\
    slot_state an "logfile" logfile_output
      (attempt sl (extracted E (CExtract p LogFile_art logfile_temp None))
               (e_call E (CParseLog logfile_temp logfile_output logfile_format))).

(** The skip flags of [extract_and_analyze] on its calls: a skipped
    artifact is neither extracted nor decoded, and with [skip_mft] the
    journal decoder gets no MFT path. *)
Definition respects_skips (sm su sl : bool) (c : call) : Prop :=
  match c with
  | CExtract _ MFT_art _ _ | CParseMFT _ _ _ _ _ => sm = false
  | CExtract _ UsnJrnl_art _ _ => su = false
  | CParseUsn _ _ m _ b => su = false /\ (sm = false \/ (m = None /\ b = false))
  | CExtract _ LogFile_art _ _ | CParseLog _ _ _ => sl = false
  | _ => True
  end.

(** The decoder calls of a run with a csv or json [output_format]: every
    decoder writes that format to a path ending in "." followed by it. *)
Definition format_run_call (fmt : string) (c : call) : Prop :=
  match c with
  | CParseMFT _ out _ f _ | CParseUsn _ out _ f _ | CParseLog _ out f =>
      f = fmt /\ ends_with out ("." ++ fmt)
  | _ => True
  end.

(** Reading back a decimal rendering: the digit test and the value of a
    digit string. *)
Definition is_digit (c : ascii) : bool :=
  Nat.leb 48 (nat_of_ascii c) && Nat.leb (nat_of_ascii c) 57.

Fixpoint all_digits (s : string) : bool :=
  match s with
  | EmptyString => true
  | String c s' => is_digit c && all_digits s'
  end.

Fixpoint digits_value (s : string) (a : nat) : nat :=
  match s with
  | EmptyString => a
  | String c s' => digits_value s' (a * 10 + (nat_of_ascii c - 48))
  end.

(** * Properties *)

Arguments in_formats : simpl never.
Arguments pjoin : simpl never.
Arguments part_name : simpl never.

Ltac run :=
  unfold bind, ret, throw, try_except, try_except2, py_import, path_exists, invoke,
         elapsed, find_partitions in *; simpl in *.

Ltac split_calls E :=
  repeat match goal with
         | |- context [e_call E ?c] => destruct (e_call E c)
         end.

Lemma denied_nil_exists (w : world) (p : string) :
  w_denied w = [] -> existsb (String.eqb (norm_path p)) (w_denied w) = false.
Proof. intros H; rewrite H; reflexivity. Qed.

Ltac calls_grow :=
  let H := fresh in
  intro H; apply (f_equal (@List.length _)) in H;
  rewrite ?List.length_app in H; simpl in H; lia.

Lemma in_formats_mft (fmt : string) :
  in_formats fmt mft_formats = true <-> fmt = "csv" \/ fmt = "json" \/ fmt = "sqlite".
Proof.
  unfold in_formats, mft_formats; simpl.
  destruct (String.eqb_spec fmt "csv"), (String.eqb_spec fmt "json"),
           (String.eqb_spec fmt "sqlite"); simpl; intuition congruence.
Qed.

Lemma in_formats_logfile (fmt : string) :
  in_formats fmt logfile_formats = true <-> fmt = "csv" \/ fmt = "json".
Proof.
  unfold in_formats, logfile_formats; simpl.
  destruct (String.eqb_spec fmt "csv"), (String.eqb_spec fmt "json"); simpl;
    intuition congruence.
Qed.

Lemma in_formats_mft_false (fmt : string) :
  fmt <> "csv" -> fmt <> "json" -> fmt <> "sqlite" -> in_formats fmt mft_formats = false.
Proof.
  intros. destruct (in_formats fmt mft_formats) eqn:H'; auto.
  apply in_formats_mft in H'; intuition.
Qed.

Lemma in_formats_logfile_false (fmt : string) :
  fmt <> "csv" -> fmt <> "json" -> in_formats fmt logfile_formats = false.
Proof.
  intros. destruct (in_formats fmt logfile_formats) eqn:H'; auto.
  apply in_formats_logfile in H'; intuition.
Qed.

(** C5: [parse_mft] and [parse_usnjrnl] recognise exactly csv, json and
    sqlite, [parse_logfile] exactly csv and json.  Any other format string
    is rejected with a failure dict before any call into the decoder
    package; a recognised one (with existing inputs) proceeds to the
    decoder calls. *)
Theorem output_format_closed_sets (E : env) (w : world)
    (input output fmt : string) (active_only include_path : bool) (mft_path : option string)
    (Hi1 : e_import E "mft_parser" = None) (Hi2 : e_import E "usnjrnl_parser" = None)
    (Hi3 : e_import E "logfile_parser" = None) (Hd : w_denied w = []) :
  ((fmt <> "csv" /\ fmt <> "json" /\ fmt <> "sqlite") ->
     rejected (parse_mft E input output fmt active_only include_path w) w /\
     rejected (parse_usnjrnl E input output fmt mft_path w) w) /\
  ((fmt <> "csv" /\ fmt <> "json") -> rejected (parse_logfile E input output fmt w) w) /\
  ((fmt = "csv" \/ fmt = "json" \/ fmt = "sqlite") -> file_exists w input = true ->
     w_calls (snd (parse_mft E input output fmt active_only include_path w)) <> w_calls w /\
     (mft_path_found w mft_path = true ->
        w_calls (snd (parse_usnjrnl E input output fmt mft_path w)) <> w_calls w)) /\
  ((fmt = "csv" \/ fmt = "json") -> file_exists w input = true ->
     w_calls (snd (parse_logfile E input output fmt w)) <> w_calls w).
Proof.
  unfold file_exists, mft_path_found.
  split; [|split; [|split]].
  - intros (H1 & H2 & H3).
    pose proof (in_formats_mft_false fmt H1 H2 H3) as Hf.
    unfold parse_mft, parse_usnjrnl, rejected; run.
    rewrite Hi1, Hi2, Hd; simpl.
    destruct (existsb (String.eqb (norm_path input)) (w_files w)); simpl;
      [|split; eexists; reflexivity].
    rewrite Hf. split; [eexists; reflexivity|].
    destruct mft_path as [p|]; simpl; [|eexists; reflexivity].
    destruct (negb (p =? "")); simpl; [|eexists; reflexivity].
    rewrite Hd; simpl.
    destruct (existsb (String.eqb (norm_path p)) (w_files w)); simpl;
      eexists; reflexivity.
  - intros (H1 & H2).
    pose proof (in_formats_logfile_false fmt H1 H2) as Hf.
    unfold parse_logfile, rejected; run.
    rewrite Hi3, Hd; simpl.
    destruct (existsb (String.eqb (norm_path input)) (w_files w)); simpl;
      [rewrite Hf|]; eexists; reflexivity.
  - intros Hfmt Hex. apply in_formats_mft in Hfmt.
    unfold parse_mft, parse_usnjrnl; run.
    rewrite Hi1, Hi2, Hd, Hex, Hfmt; simpl. split.
    + split_calls E; simpl; calls_grow.
    + intros Hm. destruct mft_path as [p|]; simpl in Hm |- *; unfold file_exists in Hm.
      * destruct (negb (p =? "")); simpl; [rewrite Hd, Hm|]; simpl;
          split_calls E; simpl; calls_grow.
      * split_calls E; simpl; calls_grow.
  - intros Hfmt Hex. apply in_formats_logfile in Hfmt.
    unfold parse_logfile; run.
    rewrite Hi3, Hd, Hex, Hfmt; simpl.
    split_calls E; simpl; calls_grow.
Qed.

(** C10: every validation failure of the three parse tools (a missing
    [input_path], a supplied [mft_path] that does not exist, an
    unrecognised [output_format]) yields a failure dict with the state
    untouched: no call into the decoder package, no file created at
    [output_path].  Existence checks are assumed not to fail with a
    permission error, and the current directory to exist. *)
Theorem validation_precedes_decoding (E : env) (w : world)
    (input output fmt : string) (active_only include_path : bool) (mft_path : option string)
    (Hi1 : e_import E "mft_parser" = None) (Hi2 : e_import E "usnjrnl_parser" = None)
    (Hi3 : e_import E "logfile_parser" = None) (Hd : w_denied w = [])
    (Hcwd : file_exists w "." = true) :
  ((file_exists w input = false \/ in_formats fmt mft_formats = false) ->
     rejected (parse_mft E input output fmt active_only include_path w) w) /\
  ((file_exists w input = false \/
    (exists p, mft_path = Some p /\ file_exists w p = false) \/
    in_formats fmt mft_formats = false) ->
     rejected (parse_usnjrnl E input output fmt mft_path w) w) /\
  ((file_exists w input = false \/ in_formats fmt logfile_formats = false) ->
     rejected (parse_logfile E input output fmt w) w).
Proof.
  unfold file_exists in *.
  split; [|split].
  - intros Hv. unfold parse_mft, rejected; run. rewrite Hi1, Hd; simpl.
    destruct (existsb (String.eqb (norm_path input)) (w_files w)) eqn:He; simpl;
      [|eexists; reflexivity].
    destruct Hv as [Hv|Hv]; [discriminate|]. rewrite Hv; eexists; reflexivity.
  - intros Hv. unfold parse_usnjrnl, rejected; run. rewrite Hi2, Hd; simpl.
    destruct (existsb (String.eqb (norm_path input)) (w_files w)) eqn:He; simpl;
      [|eexists; reflexivity].
    destruct Hv as [Hv|[(p & -> & Hp)|Hv]]; [discriminate| |].
    + destruct (String.eqb_spec p "") as [->|Hne]; simpl.
      * simpl in Hp, Hcwd. congruence.
      * unfold norm_path in Hp |- *. destruct (String.eqb_spec p "") as [|_]; [congruence|].
        simpl. rewrite ?Hd; simpl. rewrite Hp; eexists; reflexivity.
    + destruct mft_path as [p|]; simpl.
      * destruct (negb (p =? "")); simpl; rewrite ?Hd; simpl.
        -- destruct (existsb (String.eqb (norm_path p)) (w_files w)); simpl;
             [rewrite Hv|]; eexists; reflexivity.
        -- rewrite Hv; eexists; reflexivity.
      * rewrite Hv; eexists; reflexivity.
  - intros Hv. unfold parse_logfile, rejected; run. rewrite Hi3, Hd; simpl.
    destruct (existsb (String.eqb (norm_path input)) (w_files w)) eqn:He; simpl;
      [|eexists; reflexivity].
    destruct Hv as [Hv|Hv]; [discriminate|]. rewrite Hv; eexists; reflexivity.
Qed.

(** ** Invariants of the call log *)

Section Keeps.

Variable P : call -> Prop.

Lemma call_effect_calls (c : call) (v : pyval) (w : world) :
  w_calls (call_effect c v w) = w_calls w.
Proof.
  destruct c; simpl; try reflexivity; try (destruct (truthy v)); reflexivity.
Qed.

Lemma keeps_ret {A} (a : A) : keeps P (ret a).
Proof. intros w H; exact H. Qed.

Lemma keeps_throw {A} (e : exn) : keeps P (@throw A e).
Proof. intros w H; exact H. Qed.

Lemma keeps_bind {A B} (m : M A) (k : A -> M B) :
  keeps P m -> (forall a, keeps P (k a)) -> keeps P (bind m k).
Proof.
  intros Hm Hk w H. unfold bind. specialize (Hm w H).
  destruct (m w) as [[a|e] w']; simpl in *; auto. apply Hk; exact Hm.
Qed.

Lemma keeps_try {A} (m : M A) (h : exn -> M A) :
  keeps P m -> (forall e, keeps P (h e)) -> keeps P (try_except m h).
Proof.
  intros Hm Hh w H. unfold try_except. specialize (Hm w H).
  destruct (m w) as [[a|e] w']; simpl in *; auto. apply Hh; exact Hm.
Qed.

Lemma keeps_try2 {A} (m : M A) (hi h : exn -> M A) :
  keeps P m -> (forall e, keeps P (hi e)) -> (forall e, keeps P (h e)) ->
  keeps P (try_except2 m hi h).
Proof.
  intros Hm Hi Hh. apply keeps_try; auto. intros [] ; auto.
Qed.

Lemma keeps_invoke (E : env) (c : call) : P c -> keeps P (invoke E c).
Proof.
  intros Hc w H. unfold invoke.
  destruct (e_call E c); simpl; rewrite ?call_effect_calls; simpl;
    apply Forall_app; split; auto.
Qed.

Lemma keeps_py_import (E : env) (m : string) : keeps P (py_import E m).
Proof. intros w H. unfold py_import. destruct (e_import E m); exact H. Qed.

Lemma keeps_path_exists (p : string) : keeps P (path_exists p).
Proof. intros w H. unfold path_exists. destruct (existsb _ _); exact H. Qed.

Lemma keeps_elapsed (E : env) : keeps P (elapsed E).
Proof. apply keeps_ret. Qed.

Lemma keeps_find_partitions (E : env) (img : string) : keeps P (find_partitions E img).
Proof. intros w H. exact H. Qed.

End Keeps.

Ltac keep :=
  repeat first
    [ apply keeps_ret | apply keeps_throw | apply keeps_py_import | apply keeps_path_exists
    | apply keeps_elapsed | apply keeps_find_partitions
    | apply keeps_invoke; simpl; auto
    | apply keeps_bind; [|intros]
    | apply keeps_try2; [|intros|intros]
    | apply keeps_try; [|intros]
    | match goal with
      | |- keeps _ (if ?b then _ else _) => destruct b
      | |- keeps _ (match ?x with _ => _ end) => destruct x
      end ].

(** Case analysis on every outcome a tool run depends on. *)
Ltac outcomes :=
  repeat (simpl in *; match goal with
         | |- context [e_import ?E ?m] => destruct (e_import E m)
         | |- context [e_call ?E ?c] => destruct (e_call E c)
         | |- context [existsb ?f ?l] => destruct (existsb f l)
         | |- context [in_formats ?f ?l] => destruct (in_formats f l)
         | |- context [String.eqb ?a ?b] => destruct (String.eqb a b)
         | |- context [truthy ?v] => destruct (truthy v)
         end).

(** C4 (amended): [parse_usnjrnl] invokes the USN decoder with
    [mft_path] as given and [include_path = bool(mft_path)] -- false for
    [None] and for the empty string, true for a non-empty path -- and a
    success result reports [path_resolution = bool(mft_path)]; in the
    decoder's MFT join, where the record's file reference and then its
    parent reference are looked up, a record for which neither finds a
    match (no entry, or a different sequence number) is kept, name only,
    with no path; the join never drops a record. *)
Theorem parse_usnjrnl_path_resolution (E : env) (w : world)
    (input output fmt : string) (mft_path : option string) :
  (Forall (fun c => match c with
                    | CParseUsn _ _ m _ b => m = mft_path /\ b = truthy_opt mft_path
                    | _ => True end) (w_calls w) ->
   Forall (fun c => match c with
                    | CParseUsn _ _ m _ b => m = mft_path /\ b = truthy_opt mft_path
                    | _ => True end)
          (w_calls (snd (parse_usnjrnl E input output fmt mft_path w)))) /\
  (forall d, fst (parse_usnjrnl E input output fmt mft_path w) = Ok d ->
     dget "success" d = Some (VBool true) ->
     dget "path_resolution" d = Some (VBool (truthy_opt mft_path))) /\
  (truthy_opt mft_path = true <-> exists p, mft_path = Some p /\ p <> "") /\
  (forall idx r,
     (forall fr, fr = UsnJoin.usn_file_ref r \/ fr = UsnJoin.usn_parent_ref r ->
        UsnJoin.lookup (UsnJoin.ref_entry fr) idx = None \/
        exists e, UsnJoin.lookup (UsnJoin.ref_entry fr) idx = Some e /\
                  UsnJoin.ie_seq e <> UsnJoin.ref_seq fr) ->
     UsnJoin.join idx r = UsnJoin.mkOut r None) /\
  (forall idx recs, map UsnJoin.out_record (UsnJoin.decode idx recs) = recs).
Proof.
  split; [|split; [|split; [|split]]].
  - revert w. unfold parse_usnjrnl. keep.
  - intros d. unfold parse_usnjrnl; run. destruct mft_path as [p|]; outcomes;
      intros Hd Hs; inversion Hd; subst; simpl in *; try discriminate; reflexivity.
  - destruct mft_path as [p|]; simpl; split.
    + intros H. exists p; split; auto. intros ->. discriminate.
    + intros (q & [= <-] & Hq). apply String.eqb_neq in Hq. rewrite Hq; reflexivity.
    + discriminate.
    + intros (q & Hq & _); discriminate.
  - intros idx r H.
    assert (Hn : forall fr, fr = UsnJoin.usn_file_ref r \/ fr = UsnJoin.usn_parent_ref r ->
                 UsnJoin.resolve_ref idx fr = None).
    { intros fr Hfr. unfold UsnJoin.resolve_ref, UsnJoin.ref_match.
      destruct (H fr Hfr) as [-> | (e & -> & Hs)]; [reflexivity|].
      apply Z.eqb_neq in Hs. rewrite Hs. reflexivity. }
    unfold UsnJoin.join. rewrite (Hn _ (or_introl eq_refl)), (Hn _ (or_intror eq_refl)).
    reflexivity.
  - intros [idx|] recs; unfold UsnJoin.decode; rewrite map_map; [|exact (map_id recs)].
    induction recs as [|r recs IH]; simpl; [reflexivity|]. rewrite IH. f_equal.
    unfold UsnJoin.join.
    destruct (UsnJoin.resolve_ref idx (UsnJoin.usn_file_ref r)); [reflexivity|].
    destruct (UsnJoin.resolve_ref idx (UsnJoin.usn_parent_ref r)); reflexivity.
Qed.

Lemma str_app_assoc (a b c : string) : ((a ++ b) ++ c) = (a ++ (b ++ c)).
Proof. induction a as [|x a IH]; simpl; [reflexivity|now rewrite IH]. Qed.

Lemma pjoin_part_ends (d : string) (i : Z) (x sfx : string) :
  ends_with (pjoin d (part_name i (x ++ sfx))) sfx.
Proof.
  unfold ends_with, pjoin, part_name.
  destruct (String.eqb (norm_path d) ".").
  - exists ("partition" ++ string_of_Z i ++ x). rewrite !str_app_assoc. reflexivity.
  - exists (norm_path d ++ "/" ++ "partition" ++ string_of_Z i ++ x).
    rewrite !str_app_assoc. reflexivity.
Qed.

Lemma analyze_one_sqlite (E : env) (op td : string) (sm su sl : bool) (i : Z) (p : Partition) :
  keeps sqlite_run_call (analyze_one E op td "sqlite" ".db" sm su sl i p).
Proof.
  unfold analyze_one, analyze_mft_step, analyze_usnjrnl_step, analyze_logfile_step.
  cbv zeta. keep.
  all: split; [reflexivity|].
  all: first [ exact (pjoin_part_ends _ _ "_MFT" ".db")
             | exact (pjoin_part_ends _ _ "_UsnJrnl" ".db")
             | exact (pjoin_part_ends _ _ "_LogFile" ".csv") ].
Qed.

Lemma analyze_loop_sqlite (E : env) (op td : string) (sm su sl : bool)
    (todo : list (Z * Partition)) (acc : list pyval) :
  keeps sqlite_run_call (analyze_loop E op td "sqlite" ".db" sm su sl todo acc).
Proof.
  revert acc; induction todo as [|[i p] rest IH]; intros acc; simpl.
  - apply keeps_ret.
  - apply keeps_bind; [apply analyze_one_sqlite|intros; apply IH].
Qed.

(** C9: in [extract_and_analyze] with [output_format="sqlite"], every
    MFT and UsnJrnl decoder call writes sqlite to a path ending in .db,
    every LogFile decoder call writes csv to a path ending in .csv; and
    [parse_logfile] itself rejects "sqlite". *)
Theorem extract_and_analyze_sqlite_logfile_csv (E : env) (w : world)
    (image_path output_dir : string) (partition : option Z)
    (skip_mft skip_usnjrnl skip_logfile keep_temp : bool) :
  (Forall sqlite_run_call (w_calls w) ->
   Forall sqlite_run_call
     (w_calls (snd (extract_and_analyze E image_path output_dir "sqlite" partition
                      skip_mft skip_usnjrnl skip_logfile keep_temp w)))) /\
  (forall input output, e_import E "logfile_parser" = None -> w_denied w = [] ->
     rejected (parse_logfile E input output "sqlite" w) w).
Proof.
  split.
  - revert w. unfold extract_and_analyze. cbv zeta. simpl String.eqb. cbv iota. keep.
    all: try apply analyze_loop_sqlite.
  - intros input output Hi Hd. unfold parse_logfile, rejected; run.
    rewrite Hi, Hd; simpl.
    destruct (existsb (String.eqb (norm_path input)) (w_files w)); simpl; eexists; reflexivity.
Qed.

Ltac crunch :=
  repeat (simpl in *; match goal with
         | |- context [String.eqb ?a ?b] =>
             let h := fresh "Heq" in destruct (String.eqb a b) eqn:h
         | |- context [existsb ?f ?l] =>
             let h := fresh "Hex" in destruct (existsb f l) eqn:h
         end); simpl in *.

(** C4, counterexample: [mft_path=""] is supplied and [Path("").exists()]
    holds (it is the current directory), yet the decoder runs with
    [include_path=False] and the result reports no path resolution. *)
Lemma parse_usnjrnl_empty_mft_path :
  file_exists demo_world "" = true /\
  w_calls (snd (parse_usnjrnl demo_env "UsnJrnl_J" "usn.csv" "csv" (Some "") demo_world))
    = [CStat "UsnJrnl_J"; CParseUsn "UsnJrnl_J" "usn.csv" (Some "") "csv" false] /\
  dget "path_resolution"
       (match fst (parse_usnjrnl demo_env "UsnJrnl_J" "usn.csv" "csv" (Some "") demo_world) with
        | Ok d => d | Raise _ => [] end) = Some (VBool false).
Proof. vm_compute. split; [reflexivity|split; reflexivity]. Qed.

(** C1, counterexample: one input is supplied, the others are [None], and
    the call still fails, because the supplied MFT path does not exist. *)
Lemma analyze_artifacts_missing_supplied_input :
  analyze_artifacts demo_env "out" "csv" (Some "missing_MFT") None None demo_world
  = (Ok (failure "MFT file not found: missing_MFT"), demo_world).
Proof. vm_compute. reflexivity. Qed.

(** ** Results of the tools *)

Arguments try_except : simpl never.
Arguments try_except2 : simpl never.

Section Results.

Variable Q : pydict -> Prop.

Lemma ok_sat_ret (a : pydict) : Q a -> ok_sat Q (ret a).
Proof. intros H w; exact H. Qed.

Lemma ok_sat_bind {A} (m : M A) (k : A -> M pydict) :
  (forall a, ok_sat Q (k a)) -> ok_sat Q (bind m k).
Proof.
  intros Hk w. unfold bind. destruct (m w) as [[a|e] w']; simpl; auto. apply Hk.
Qed.

Lemma ok_sat_try (m : M pydict) (h : exn -> M pydict) :
  ok_sat Q m -> (forall e, ok_sat Q (h e)) -> ok_sat Q (try_except m h).
Proof.
  intros Hm Hh w. unfold try_except. specialize (Hm w).
  destruct (m w) as [[a|e] w']; simpl in *; auto. apply Hh.
Qed.

Lemma total_try (m : M pydict) (h : exn -> M pydict) :
  ok_sat Q m -> (forall e, total Q (h e)) -> total Q (try_except m h).
Proof.
  intros Hm Hh w. unfold try_except. specialize (Hm w).
  destruct (m w) as [[a|e] w']; simpl in *; eauto. apply Hh.
Qed.

Lemma total_try2 (m : M pydict) (hi h : exn -> M pydict) :
  ok_sat Q m -> (forall e, total Q (hi e)) -> (forall e, total Q (h e)) ->
  total Q (try_except2 m hi h).
Proof. intros Hm Hi Hh. apply total_try; auto. intros []; auto. Qed.

Lemma total_ret (a : pydict) : Q a -> total Q (ret a).
Proof. intros H w. exists a; auto. Qed.

End Results.

Lemma bind_import_ok {A} (E : env) (m : string) (k : unit -> M A) (w : world) :
  e_import E m = None -> bind (py_import E m) k w = k tt w.
Proof. intros H. unfold bind, py_import. rewrite H. reflexivity. Qed.

Lemma bind_exists_ok {A} (p : string) (k : bool -> M A) (w : world) :
  w_denied w = [] -> bind (path_exists p) k w = k (file_exists w p) w.
Proof. intros H. unfold bind, path_exists, file_exists. rewrite H. reflexivity. Qed.

Lemma bind_ret_l {A B} (a : A) (k : A -> M B) (w : world) : bind (ret a) k w = k a w.
Proof. reflexivity. Qed.

Lemma bind_assoc_w {A B C} (m : M A) (k1 : A -> M B) (k2 : B -> M C) (w : world) :
  bind (bind m k1) k2 w = bind m (fun a => bind (k1 a) k2) w.
Proof. unfold bind. destruct (m w) as [[a|e] w']; reflexivity. Qed.

Lemma failure_shape (msg : string) : result_shape (failure msg).
Proof. exists false; split; [reflexivity|eauto]. Qed.

Lemma extract_loop_ok_sat (E : env) (od : string) (v : bool) (todo : list (Z * Partition))
    (acc : list pyval) (k : list pyval -> M pydict) :
  (forall prs, ok_sat result_shape (k prs)) ->
  ok_sat result_shape (bind (extract_loop E od v todo acc) k).
Proof. intros Hk. apply ok_sat_bind. exact Hk. Qed.

Ltac shape :=
  repeat first
    [ apply ok_sat_ret; first [apply failure_shape | exists true; split; [reflexivity|discriminate]]
    | apply ok_sat_bind; intros
    | apply ok_sat_try; [|intros]
    | match goal with
      | |- ok_sat _ (if ?b then _ else _) => destruct b
      | |- ok_sat _ (match ?x with _ => _ end) => destruct x
      end ].

Ltac prefix Hi Hd :=
  repeat first
    [ rewrite bind_import_ok by apply Hi
    | rewrite bind_exists_ok by exact Hd
    | rewrite bind_ret_l
    | rewrite bind_assoc_w
    | match goal with
      | |- context [if ?b then _ else _] =>
          lazymatch b with true => fail | false => fail | _ => destruct b end
      | |- context [match ?o with Some _ => _ | None => _ end] =>
          lazymatch o with
          | Some _ => fail
          | None => fail
          | _ => match type of o with option string => destruct o end
          end
      end
    | progress simpl ].

Ltac finish_total :=
  first
    [ eexists; split; [reflexivity|]; first [apply failure_shape | exists true; split; [reflexivity|discriminate]]
    | match goal with
      | |- exists a, fst (try_except ?m ?h ?w) = Ok a /\ _ =>
          apply (total_try result_shape m h); [shape | intros; apply total_ret, failure_shape]
      | |- exists a, fst (try_except2 ?m ?hi ?h ?w) = Ok a /\ _ =>
          apply (total_try2 result_shape m hi h);
          [shape | intros; apply total_ret, failure_shape | intros; apply total_ret, failure_shape]
      end ].

(** C8 (amended): once the decoder package imports (the imports at the
    top of each tool run outside its [try]) and no existence check fails
    with a permission error (the checks also run outside the [try]), every
    tool returns a dict with a boolean [success] key, and every failure,
    including every exception raised inside the [try], is returned as
    [{success: False, error: msg}] instead of propagating. *)
Theorem tools_return_success_dict (E : env) (w : world)
    (Hi : forall m, e_import E m = None) (Hd : w_denied w = []) :
  (forall i o f a p, exists d, fst (parse_mft E i o f a p w) = Ok d /\ result_shape d) /\
  (forall i o f m, exists d, fst (parse_usnjrnl E i o f m w) = Ok d /\ result_shape d) /\
  (forall i o f, exists d, fst (parse_logfile E i o f w) = Ok d /\ result_shape d) /\
  (forall img od part v, exists d, fst (extract_from_image E img od part v w) = Ok d /\ result_shape d) /\
  (forall img od f part s1 s2 s3 kt,
     exists d, fst (extract_and_analyze E img od f part s1 s2 s3 kt w) = Ok d /\ result_shape d) /\
  (forall od f m u l, exists d, fst (analyze_artifacts E od f m u l w) = Ok d /\ result_shape d).
Proof.
  split; [|split; [|split; [|split; [|split]]]].
  - intros. unfold parse_mft. prefix Hi Hd. all: finish_total.
  - intros. unfold parse_usnjrnl. prefix Hi Hd. all: finish_total.
  - intros. unfold parse_logfile. prefix Hi Hd. all: finish_total.
  - intros. unfold extract_from_image. prefix Hi Hd. all: finish_total.
  - intros. unfold extract_and_analyze. prefix Hi Hd. all: finish_total.
  - intros. unfold analyze_artifacts. prefix Hi Hd. all: finish_total.
Qed.

(** C8, counterexample: without the decoder package on the module path,
    the import at the top of [parse_mft] raises outside its [try], and the
    ImportError propagates to the caller. *)
Lemma parse_mft_import_error_propagates :
  fst (parse_mft no_package_env "MFT" "mft.csv" "csv" false true demo_world)
  = Raise (ImportError "No module named 'src.mft_parser'").
Proof. vm_compute. reflexivity. Qed.

Ltac same_env H :=
  repeat match goal with
         | |- context [e_call ?E1 ?c] =>
             lazymatch goal with
             | H' : forall c, ~ image_call c -> e_call E1 c = _ |- _ =>
                 rewrite (H' c) by (simpl; auto)
             end
         end.

(** C6: an ImportError raised while opening the image (the container
    codec is missing) makes [extract_from_image] and [extract_and_analyze]
    return a failure naming the missing dependency instead of raising;
    the tools working on extracted artifact files behave the same whether
    or not the image can be handled. *)
Theorem missing_codec_is_local (E : env) (w : world) (img od msg : string)
    (Hi : forall m, e_import E m = None) (Hd : w_denied w = [])
    (Hex : file_exists w img = true)
    (Hmk : forall d, exists v, e_call E (CMkdir d) = Ok v)
    (Hopen : e_call E (COpenImage img) = Raise (ImportError msg)) :
  (forall part v, fst (extract_from_image E img od part v w)
     = Ok (failure ("Missing dependency: " ++ msg
                    ++ ". For E01 support, install: pip install pyewf-python"))) /\
  (forall fmt part s1 s2 s3 kt, in_formats fmt mft_formats = true ->
     fst (extract_and_analyze E img od fmt part s1 s2 s3 kt w)
     = Ok (failure ("Missing dependency: " ++ msg))) /\
  (forall E', same_but_image E E' ->
     (forall i o f a p, parse_mft E i o f a p w = parse_mft E' i o f a p w) /\
     (forall i o f m, parse_usnjrnl E i o f m w = parse_usnjrnl E' i o f m w) /\
     (forall i o f, parse_logfile E i o f w = parse_logfile E' i o f w) /\
     (forall o f m u l, analyze_artifacts E o f m u l w = analyze_artifacts E' o f m u l w)).
Proof.
  split; [|split].
  - intros part v. unfold extract_from_image.
    rewrite bind_import_ok by apply Hi. rewrite bind_exists_ok by exact Hd. rewrite Hex.
    simpl. unfold try_except2, try_except, bind, invoke.
    destruct (Hmk od) as [v1 Hv1]. rewrite Hv1. simpl. rewrite Hopen. reflexivity.
  - intros fmt part s1 s2 s3 kt Hf. unfold extract_and_analyze.
    rewrite !bind_import_ok by apply Hi. rewrite bind_exists_ok by exact Hd. rewrite Hex.
    simpl. rewrite Hf. simpl. unfold try_except2, try_except, bind, invoke.
    destruct (Hmk (norm_path od)) as [v1 Hv1]. rewrite Hv1. simpl.
    destruct (Hmk (pjoin (norm_path od) "temp_extracted")) as [v2 Hv2]. rewrite Hv2. simpl.
    rewrite Hopen. reflexivity.
  - intros E' (Himp & Hc & Hcont & Hel).
    split; [|split; [|split]]; intros;
      [unfold parse_mft | unfold parse_usnjrnl | unfold parse_logfile
      | unfold analyze_artifacts; simpl check_inputs];
      unfold py_import, invoke, elapsed; rewrite ?Himp, ?Hcont, ?Hel; same_env Hc; reflexivity.
Qed.

Section MFTStream.
Local Open Scope nat_scope.
Import MFTDecoder.

Lemma parse_from_slots (rs : nat) (buf : list Byte.byte) (Hrs : 0 < rs) :
  forall k m fuel, k <= fuel ->
    m * rs + k * rs <= List.length buf < m * rs + (k + 1) * rs ->
    List.length (parse_from fuel rs (m * rs) buf) = k /\
    (forall j, j < k -> nth_error (parse_from fuel rs (m * rs) buf) j
                        = Some (decode_slot (m + j) (firstn rs (skipn ((m + j) * rs) buf)))).
Proof.
  induction k as [|k IH]; intros m fuel Hk Hlen.
  - destruct fuel as [|f]; simpl.
    + split; [reflexivity|intros; lia].
    + assert (Hno : (m * rs + rs <=? List.length buf) = false) by (apply Nat.leb_gt; lia).
      rewrite Hno. split; [reflexivity|intros; lia].
  - destruct fuel as [|f]; [lia|]. simpl.
    assert (Hyes : (m * rs + rs <=? List.length buf) = true) by (apply Nat.leb_le; lia).
    rewrite Hyes.
    replace (m * rs + rs) with (S m * rs) by lia.
    destruct (IH (S m) f) as [IHl IHn]; [lia|lia|].
    split.
    + cbn [List.length]. rewrite IHl. reflexivity.
    + intros [|j] Hj; cbn [nth_error].
      * rewrite Nat.add_0_r, Nat.div_mul by lia. reflexivity.
      * rewrite IHn by lia. replace (m + S j) with (S m + j) by lia. reflexivity.
Qed.

End MFTStream.

(** C3: decoding an MFT buffer of [N] fixed-size slots yields exactly [N]
    records, record [n] being slot [n] decoded and flagged by its own
    magic and fixup; [get_total_entries] is the buffer length divided by
    the record size, [N]; and a successful [parse_mft] reports that value
    as [total_entries]. *)
Theorem mft_one_record_per_slot (buf : list Byte.byte) (N : nat)
    (Hwf : List.length buf = (N * mft_record_size)%nat) :
  List.length (MFTDecoder.parse buf) = N /\
  get_total_entries buf = Z.of_nat N /\
  (forall n, (n < N)%nat ->
     nth_error (MFTDecoder.parse buf) n
     = Some (MFTDecoder.decode_slot n (MFTDecoder.slot buf n))) /\
  (forall E w i o f a p d,
     fst (parse_mft E i o f a p w) = Ok d -> dget "success" d = Some (VBool true) ->
     dget "total_entries" d = Some (VInt (get_total_entries (e_contents E i)))).
Proof.
  assert (Hrs : (0 < mft_record_size)%nat) by (unfold mft_record_size; lia).
  destruct (parse_from_slots mft_record_size buf Hrs N 0 (List.length buf)) as [Hl Hn].
  { rewrite Hwf. unfold mft_record_size. lia. }
  { rewrite Hwf. unfold mft_record_size. lia. }
  split; [|split; [|split]].
  - exact Hl.
  - unfold get_total_entries. rewrite Hwf, Nat.div_mul by (unfold mft_record_size; lia).
    reflexivity.
  - intros n Hlt. unfold MFTDecoder.parse. specialize (Hn n Hlt). simpl in Hn.
    rewrite Hn. reflexivity.
  - intros E w i o f a p d. unfold parse_mft; run. outcomes;
      intros Hd Hs; inversion Hd; subst; simpl in *; try discriminate; reflexivity.
Qed.

Lemma analyze_loop_include_deleted (E : env) (op td fmt ext : string) (sm su sl : bool)
    (todo : list (Z * Partition)) (acc : list pyval) :
  keeps (mft_call_include_deleted true) (analyze_loop E op td fmt ext sm su sl todo acc).
Proof.
  revert acc; induction todo as [|[i p] rest IH]; intros acc; simpl.
  - apply keeps_ret.
  - apply keeps_bind; [|intros; apply IH].
    unfold analyze_one, analyze_mft_step, analyze_usnjrnl_step, analyze_logfile_step.
  cbv zeta. keep.
Qed.

(** C7: [parse_mft] calls the decoder with [include_deleted = not
    active_only] (so with the default [active_only=False], deleted records
    are included), [extract_and_analyze] always with [include_deleted =
    True]; and the flag only filters the decoded stream: the records are
    decoded the same way whatever its value, and records whose in-use flag
    is clear are dropped only when it is false. *)
Theorem include_deleted_is_visibility_filter :
  (forall E w i o f active_only p,
     Forall (mft_call_include_deleted (negb active_only)) (w_calls w) ->
     Forall (mft_call_include_deleted (negb active_only))
            (w_calls (snd (parse_mft E i o f active_only p w)))) /\
  (forall E w i o,
     Forall (mft_call_include_deleted true) (w_calls w) ->
     Forall (mft_call_include_deleted true) (w_calls (snd (parse_mft_default E i o w)))) /\
  (forall E w img od f part s1 s2 s3 kt,
     Forall (mft_call_include_deleted true) (w_calls w) ->
     Forall (mft_call_include_deleted true)
            (w_calls (snd (extract_and_analyze E img od f part s1 s2 s3 kt w)))) /\
  (forall buf include_deleted,
     MFTDecoder.parse_mft_file_records buf include_deleted
     = filter (fun r => include_deleted || MFTDecoder.in_use r) (MFTDecoder.parse buf)) /\
  (forall buf, MFTDecoder.parse_mft_file_records buf true = MFTDecoder.parse buf) /\
  (forall buf r, In r (MFTDecoder.parse_mft_file_records buf false) <->
                 In r (MFTDecoder.parse buf) /\ MFTDecoder.in_use r = true).
Proof.
  split; [|split; [|split; [|split; [|split]]]].
  - intros E w i o f a p. revert w. unfold parse_mft. keep.
  - intros E w i o. revert w. unfold parse_mft_default, parse_mft. keep.
  - intros E w img od f part s1 s2 s3 kt. revert w. unfold extract_and_analyze. cbv zeta. keep.
    all: apply analyze_loop_include_deleted.
  - reflexivity.
  - intros buf. unfold MFTDecoder.parse_mft_file_records. simpl.
    induction (MFTDecoder.parse buf) as [|r l IH]; simpl; [reflexivity|now rewrite IH].
  - intros buf r. unfold MFTDecoder.parse_mft_file_records. rewrite filter_In. simpl.
    reflexivity.
Qed.

Lemma dget_dset_eq (k : string) (v : pyval) (d : pydict) : dget k (dset k v d) = Some v.
Proof.
  induction d as [|[k' v'] d IH]; simpl.
  - now rewrite String.eqb_refl.
  - destruct (String.eqb k k') eqn:H; simpl; [now rewrite String.eqb_refl | now rewrite H].
Qed.

Lemma dget_dset_neq (k k' : string) (v : pyval) (d : pydict) :
  k <> k' -> dget k (dset k' v d) = dget k d.
Proof.
  intros Hne. induction d as [|[k'' v'] d IH]; simpl.
  - apply String.eqb_neq in Hne. now rewrite Hne.
  - destruct (String.eqb k' k'') eqn:H; simpl.
    + apply String.eqb_eq in H; subst k''. apply String.eqb_neq in Hne. now rewrite Hne.
    + destruct (String.eqb k k''); auto.
Qed.

Lemma bind_ok {A B} (m : M A) (k : A -> M B) (w w' : world) (a : A) :
  m w = (Ok a, w') -> bind m k w = k a w'.
Proof. intros H. unfold bind. now rewrite H. Qed.

Lemma bind_invoke_ok {B} (E : env) (c : call) (v : pyval) (k : pyval -> M B) (w : world) :
  e_call E c = Ok v -> bind (invoke E c) k w = k v (call_effect c v (log_call c w)).
Proof. intros H. unfold bind, invoke. now rewrite H. Qed.

Lemma call_effect_denied (c : call) (v : pyval) (w : world) :
  w_denied (call_effect c v w) = w_denied w.
Proof. destruct c; simpl; try destruct (truthy v); reflexivity. Qed.

(** A slot survives the blocks that write other keys. *)
Lemma slot_state_frame (a a' : pydict) (k1 k2 key out : string) (r : option (res pyval)) :
  (forall k, k <> k1 -> k <> k2 -> dget k a' = dget k a) ->
  key <> k1 -> key <> k2 -> (key ++ "_error") <> k1 -> (key ++ "_error") <> k2 ->
  slot_state a key out r -> slot_state a' key out r.
Proof.
  intros Hf H1 H2 H3 H4. destruct r as [[u|e]|]; simpl; rewrite !Hf by assumption; auto.
Qed.

Ltac slot_done :=
  simpl; repeat split; intros;
  repeat (rewrite dget_dset_neq by (first [assumption | discriminate]));
  rewrite ?dget_dset_eq; auto.

Ltac step_done := eexists _, _; split; [reflexivity|]; slot_done.

Lemma analyze_mft_step_spec (E : env) (op fmt ext : string) (sm : bool) (i : Z)
    (p : Partition) (mt : string) (a0 : pydict) (w : world) :
  extractor_returns E -> w_denied w = [] ->
  dget "mft" a0 = None -> dget "mft_error" a0 = None ->
  exists a1 w', analyze_mft_step E op fmt ext sm i p mt a0 w = (Ok a1, w') /\
    w_denied w' = [] /\
    (forall k, k <> "mft" -> k <> "mft_error" -> dget k a1 = dget k a0) /\
    slot_state a1 "mft" (pjoin op (part_name i ("_MFT" ++ ext)))
      (attempt sm (extracted E (CExtract p MFT_art mt None))
               (e_call E (CParseMFT mt (pjoin op (part_name i ("_MFT" ++ ext))) true fmt true))).
Proof.
  intros [_ Hx] Hd H1 H2. destruct w as [fs dn cs]; simpl in Hd; subst dn.
  unfold analyze_mft_step, attempt, extracted.
  destruct sm. { exists a0, (mkWorld fs [] cs). slot_done. }
  destruct (Hx p MFT_art mt None) as [v Hv]. rewrite Hv. run. rewrite Hv. simpl.
  destruct (truthy v); simpl.
  - destruct (e_call E (CParseMFT _ _ _ _ _)); simpl; step_done.
  - step_done.
Qed.

Lemma analyze_usnjrnl_step_spec (E : env) (op td fmt ext : string) (sm su : bool) (i : Z)
    (p : Partition) (mt : string) (a1 : pydict) (w : world) :
  extractor_returns E -> w_denied w = [] ->
  dget "usnjrnl" a1 = None -> dget "usnjrnl_error" a1 = None ->
  exists mft_for_path, (mft_for_path = None \/ mft_for_path = Some mt) /\
  exists a2 w', analyze_usnjrnl_step E op td fmt ext sm su i p mt a1 w = (Ok a2, w') /\
    w_denied w' = [] /\
    (forall k, k <> "usnjrnl" -> k <> "usnjrnl_error" -> dget k a2 = dget k a1) /\
    slot_state a2 "usnjrnl" (pjoin op (part_name i ("_UsnJrnl" ++ ext)))
      (attempt su (extracted E (CExtract p UsnJrnl_art (pjoin td (part_name i "_UsnJrnl_J")) None))
               (e_call E (CParseUsn (pjoin td (part_name i "_UsnJrnl_J"))
                                    (pjoin op (part_name i ("_UsnJrnl" ++ ext)))
                                    mft_for_path fmt (truthy_opt mft_for_path)))).
Proof.
  intros [_ Hx] Hd H1 H2. destruct w as [fs dn cs]; simpl in Hd; subst dn.
  unfold analyze_usnjrnl_step, attempt, extracted.
  destruct su. { exists None. split; [now left|]. exists a1, (mkWorld fs [] cs). slot_done. }
  destruct (Hx p UsnJrnl_art (pjoin td (part_name i "_UsnJrnl_J")) None) as [v Hv].
  rewrite Hv. run. rewrite Hv. simpl.
  destruct (truthy v); simpl.
  2: { exists None. split; [now left|]. step_done. }
  destruct sm; simpl.
  - exists None. split; [now left|].
    destruct (e_call E (CParseUsn _ _ _ _ _)); simpl; step_done.
  - repeat match goal with |- context [existsb ?f ?l] => destruct (existsb f l) end; simpl;
    first [ exists (Some mt); split; [now right|];
            solve [destruct (e_call E (CParseUsn _ _ _ _ _)); simpl; step_done]
          | exists None; split; [now left|];
            solve [destruct (e_call E (CParseUsn _ _ _ _ _)); simpl; step_done] ].
Qed.

Lemma analyze_logfile_step_spec (E : env) (op td fmt ext : string) (sl : bool) (i : Z)
    (p : Partition) (a2 : pydict) (w : world) :
  extractor_returns E -> w_denied w = [] ->
  dget "logfile" a2 = None -> dget "logfile_error" a2 = None ->
  exists a3 w', analyze_logfile_step E op td fmt ext sl i p a2 w = (Ok a3, w') /\
    w_denied w' = [] /\
    (forall k, k <> "logfile" -> k <> "logfile_error" -> dget k a3 = dget k a2) /\
    slot_state a3 "logfile"
      (pjoin op (part_name i ("_LogFile" ++ (if String.eqb fmt "sqlite" then ".csv" else ext))))
      (attempt sl (extracted E (CExtract p LogFile_art (pjoin td (part_name i "_LogFile")) None))
               (e_call E (CParseLog (pjoin td (part_name i "_LogFile"))
                  (pjoin op (part_name i ("_LogFile" ++ (if String.eqb fmt "sqlite" then ".csv" else ext))))
                  (if String.eqb fmt "sqlite" then "csv" else fmt)))).
Proof.
  intros [_ Hx] Hd H1 H2. destruct w as [fs dn cs]; simpl in Hd; subst dn.
  unfold analyze_logfile_step, attempt, extracted.
  destruct sl. { exists a2, (mkWorld fs [] cs). slot_done. }
  destruct (Hx p LogFile_art (pjoin td (part_name i "_LogFile")) None) as [v Hv].
  rewrite Hv. run. rewrite Hv. simpl.
  destruct (truthy v); simpl.
  - destruct (e_call E (CParseLog _ _ _)); simpl; step_done.
  - step_done.
Qed.

Lemma analyze_one_entry (E : env) (op td fmt ext : string) (sm su sl : bool) (i : Z)
    (p : Partition) (w : world) :
  extractor_returns E -> w_denied w = [] ->
  exists e w', analyze_one E op td fmt ext sm su sl i p w = (Ok e, w') /\
    w_denied w' = [] /\ analyzed_entry E op td fmt ext sm su sl (i, p) e.
Proof.
  intros Hx Hd. destruct (proj1 Hx p) as [v Hv].
  unfold analyze_one. rewrite (bind_invoke_ok _ _ _ _ _ Hv). cbv beta zeta.
  assert (Hd0 : w_denied (call_effect (CExtractor p) v (log_call (CExtractor p) w)) = [])
    by (rewrite call_effect_denied; exact Hd).
  destruct (analyze_mft_step_spec E op fmt ext sm i p (pjoin td (part_name i "_MFT")) []
              _ Hx Hd0 eq_refl eq_refl) as (a1 & w1 & Hs1 & Hd1 & Hf1 & Hsl1).
  rewrite (bind_ok _ _ _ _ _ Hs1).
  destruct (analyze_usnjrnl_step_spec E op td fmt ext sm su i p (pjoin td (part_name i "_MFT"))
              a1 w1 Hx Hd1) as (mfp & Hmfp & a2 & w2 & Hs2 & Hd2 & Hf2 & Hsl2);
    [rewrite Hf1 by discriminate; reflexivity | rewrite Hf1 by discriminate; reflexivity |].
  rewrite (bind_ok _ _ _ _ _ Hs2).
  destruct (analyze_logfile_step_spec E op td fmt ext sl i p a2 w2 Hx Hd2)
    as (a3 & w3 & Hs3 & Hd3 & Hf3 & Hsl3);
    [rewrite Hf2, Hf1 by discriminate; reflexivity
    | rewrite Hf2, Hf1 by discriminate; reflexivity |].
  rewrite (bind_ok _ _ _ _ _ Hs3).
  eexists _, w3; split; [reflexivity|]. split; [exact Hd3|].
  exists a3. split; [reflexivity|]. split; [|split].
  - apply (slot_state_frame a2 a3 "logfile" "logfile_error"); try discriminate; [exact Hf3|].
    apply (slot_state_frame a1 a2 "usnjrnl" "usnjrnl_error"); try discriminate; assumption.
  - exists mfp. split; [exact Hmfp|].
    apply (slot_state_frame a2 a3 "logfile" "logfile_error"); try discriminate; assumption.
  - exact Hsl3.
Qed.

Lemma analyze_loop_entries (E : env) (op td fmt ext : string) (sm su sl : bool)
    (todo : list (Z * Partition)) :
  extractor_returns E ->
  forall acc w, w_denied w = [] ->
  exists prs w', analyze_loop E op td fmt ext sm su sl todo acc w = (Ok (acc ++ prs)%list, w') /\
    w_denied w' = [] /\ Forall2 (analyzed_entry E op td fmt ext sm su sl) todo prs.
Proof.
  intros Hx. induction todo as [|[i p] rest IH]; intros acc w Hd.
  - exists [], w. simpl. rewrite app_nil_r. auto.
  - cbn [analyze_loop].
    destruct (analyze_one_entry E op td fmt ext sm su sl i p w Hx Hd) as (e & w1 & He & Hd1 & Hent).
    rewrite (bind_ok _ _ _ _ _ He).
    destruct (IH (acc ++ [e])%list w1 Hd1) as (prs & w2 & Hl & Hd2 & Hf).
    exists (e :: prs), w2. rewrite Hl, <- app_assoc. auto.
Qed.

Lemma extract_one_entry (E : env) (od : string) (verbose : bool) (i : Z) (p : Partition)
    (w : world) :
  extractor_returns E ->
  exists e w', extract_one E od verbose i p w = (Ok e, w') /\
    extracted_entry E od verbose (i, p) e.
Proof.
  intros [Hc Hx]. destruct (Hc p) as [v0 H0].
  destruct (Hx p MFT_art (pjoin od (part_name i "_MFT")) None) as [v1 H1].
  destruct (Hx p LogFile_art (pjoin od (part_name i "_LogFile")) None) as [v2 H2].
  destruct (Hx p UsnJrnl_art (pjoin od (part_name i "_UsnJrnl_J")) (Some verbose)) as [v3 H3].
  unfold extracted_entry, extracted. rewrite H1, H2, H3.
  unfold extract_one. run. rewrite H0, H1, H2, H3. simpl.
  destruct (truthy v1), (truthy v2), (truthy v3);
    (eexists _, _; split; [reflexivity|]; eexists; split; [reflexivity|]; simpl; auto).
Qed.

Lemma extract_loop_entries (E : env) (od : string) (verbose : bool)
    (todo : list (Z * Partition)) :
  extractor_returns E ->
  forall acc w,
  exists prs w', extract_loop E od verbose todo acc w = (Ok (acc ++ prs)%list, w') /\
    Forall2 (extracted_entry E od verbose) todo prs.
Proof.
  intros Hx. induction todo as [|[i p] rest IH]; intros acc w.
  - exists [], w. simpl. rewrite app_nil_r. auto.
  - cbn [extract_loop].
    destruct (extract_one_entry E od verbose i p w Hx) as (e & w1 & He & Hent).
    rewrite (bind_ok _ _ _ _ _ He).
    destruct (IH (acc ++ [e])%list w1) as (prs & w2 & Hl & Hf).
    exists (e :: prs), w2. rewrite Hl, <- app_assoc. auto.
Qed.

(** C2: in [extract_from_image] and [extract_and_analyze], once the run
    reaches the partition loop (imports succeed, the image exists, the
    output directories are created, the image opens, partitions are found
    and the requested partition is valid) and every extract call returns
    rather than raising, the result has [success = True] and one entry per
    selected partition.  In each entry an artifact whose extract call
    returns false is only left out of "extracted" (or not decoded), and a
    decoder exception for one artifact only puts its message under
    mft_error, usnjrnl_error or logfile_error, with the other artifacts of
    the partition and all other partitions processed as usual. *)
Theorem per_artifact_failures_are_local (E : env) (w : world) (img od fmt : string)
    (partition : option Z) (verbose sm su sl kt : bool)
    (ps : list Partition) (todo : list (Z * Partition))
    (Hi : forall m, e_import E m = None) (Hd : w_denied w = [])
    (Hex : file_exists w img = true)
    (Hmk : forall d, exists v, e_call E (CMkdir d) = Ok v)
    (Hopen : exists v, e_call E (COpenImage img) = Ok v)
    (Hps : e_partitions E img = Ok ps)
    (Hsel : select_partitions partition ps = Some todo)
    (Hx : extractor_returns E) :
  (exists d prs, fst (extract_from_image E img od partition verbose w) = Ok d /\
     dget "success" d = Some (VBool true) /\ dget "partitions" d = Some (VList prs) /\
     Forall2 (extracted_entry E od verbose) todo prs) /\
  (in_formats fmt mft_formats = true ->
   exists d prs, fst (extract_and_analyze E img od fmt partition sm su sl kt w) = Ok d /\
     dget "success" d = Some (VBool true) /\ dget "partitions" d = Some (VList prs) /\
     Forall2 (analyzed_entry E (norm_path od) (pjoin (norm_path od) "temp_extracted") fmt
                             (if String.eqb fmt "sqlite" then ".db" else "." ++ fmt) sm su sl)
             todo prs).
Proof.
  destruct Hopen as [vo Ho].
  destruct w as [fs dn cs]; simpl in Hd; subst dn. split.
  - unfold extract_from_image.
    rewrite bind_import_ok by apply Hi. rewrite bind_exists_ok by reflexivity. rewrite Hex.
    simpl. unfold try_except2, try_except.
    destruct (Hmk od) as [v1 Hv1]. rewrite (bind_invoke_ok _ _ _ _ _ Hv1).
    rewrite (bind_invoke_ok _ _ _ _ _ Ho). unfold find_partitions.
    rewrite (bind_ok _ _ _ _ _ (f_equal (fun r => (r, _)) Hps)). rewrite Hsel.
    match goal with |- context [bind (extract_loop E od verbose todo []) _ ?w0] =>
      destruct (extract_loop_entries E od verbose todo Hx [] w0) as (prs & w1 & Hl & Hf) end.
    rewrite (bind_ok _ _ _ _ _ Hl). simpl.
    exists [("success", VBool true); ("partitions", VList prs);
            ("total_partitions", VInt (Z.of_nat (List.length ps)))], prs.
    auto.
  - intros Hf. unfold extract_and_analyze.
    rewrite !bind_import_ok by apply Hi. rewrite bind_exists_ok by reflexivity. rewrite Hex.
    simpl. rewrite Hf. simpl. unfold try_except2, try_except.
    destruct (Hmk (norm_path od)) as [v1 Hv1]. rewrite (bind_invoke_ok _ _ _ _ _ Hv1).
    destruct (Hmk (pjoin (norm_path od) "temp_extracted")) as [v2 Hv2].
    rewrite (bind_invoke_ok _ _ _ _ _ Hv2).
    rewrite (bind_invoke_ok _ _ _ _ _ Ho). unfold find_partitions.
    rewrite (bind_ok _ _ _ _ _ (f_equal (fun r => (r, _)) Hps)). rewrite Hsel.
    match goal with |- context [bind (analyze_loop E ?a ?b ?c ?d ?e ?f ?g todo []) _ ?w0] =>
      destruct (analyze_loop_entries E a b c d e f g todo Hx [] w0) as (prs & w1 & Hl & _ & Hf2);
      [reflexivity|] end.
    rewrite (bind_ok _ _ _ _ _ Hl). simpl.
    destruct kt.
    + simpl. eexists _, prs. split; [reflexivity|]. auto.
    + unfold bind, try_except, invoke.
      destruct (e_call E (CRmtree _)); simpl; eexists _, prs; split; try reflexivity; auto.
Qed.

(** ** The sample runs *)

Lemma sample_mft_statuses :
  map MFTDecoder.status (MFTDecoder.parse sample_mft)
  = [MFTDecoder.Valid; MFTDecoder.UnallocatedOrCorrupt] /\
  map MFTDecoder.in_use (MFTDecoder.parse sample_mft) = [true; false].
Proof. vm_compute. split; reflexivity. Qed.

Lemma output_format_closed_sets_witness :
  rejected (parse_mft demo_env "MFT" "out.csv" "xml" false true demo_world) demo_world /\
  w_calls (snd (parse_logfile demo_env "LogFile" "out.csv" "csv" demo_world)) <> w_calls demo_world.
Proof.
  destruct (output_format_closed_sets demo_env demo_world "MFT" "out.csv" "xml" false true None
              eq_refl eq_refl eq_refl eq_refl) as [H1 _].
  destruct (output_format_closed_sets demo_env demo_world "LogFile" "out.csv" "csv" false true None
              eq_refl eq_refl eq_refl eq_refl) as (_ & _ & _ & H4).
  split.
  - apply H1. repeat split; discriminate.
  - apply H4; [left; reflexivity | reflexivity].
Defined.

Lemma validation_precedes_decoding_witness :
  rejected (parse_usnjrnl demo_env "UsnJrnl_J" "out.csv" "csv" (Some "missing_MFT") demo_world)
           demo_world.
Proof.
  apply (proj1 (proj2 (validation_precedes_decoding demo_env demo_world "UsnJrnl_J" "out.csv"
                         "csv" false true (Some "missing_MFT") eq_refl eq_refl eq_refl eq_refl
                         eq_refl))).
  right; left. exists "missing_MFT". split; reflexivity.
Defined.

Lemma parse_usnjrnl_path_resolution_witness :
  (exists d, fst (parse_usnjrnl demo_env "UsnJrnl_J" "out.csv" "csv" (Some "MFT") demo_world) = Ok d /\
    dget "path_resolution" d = Some (VBool true)) /\
  UsnJoin.join [(10%Z, UsnJoin.mkEntry 3 "a.txt" 5)]
    (UsnJoin.mkUsn (UsnJoin.mkRef 10 2) (UsnJoin.mkRef 5 1) 0 0 "a.txt")
  = UsnJoin.mkOut (UsnJoin.mkUsn (UsnJoin.mkRef 10 2) (UsnJoin.mkRef 5 1) 0 0 "a.txt") None.
Proof.
  split.
  - eexists. split; [reflexivity|].
    apply (proj1 (proj2 (parse_usnjrnl_path_resolution demo_env demo_world "UsnJrnl_J" "out.csv"
                           "csv" (Some "MFT")))); reflexivity.
  - apply (proj1 (proj2 (proj2 (proj2 (parse_usnjrnl_path_resolution demo_env demo_world
                                          "UsnJrnl_J" "out.csv" "csv" (Some "MFT")))))).
    intros fr [->| ->]; simpl.
    + right. eexists. split; [reflexivity|]. discriminate.
    + left. reflexivity.
Defined.

Lemma extract_and_analyze_sqlite_logfile_csv_witness :
  Forall sqlite_run_call
    (w_calls (snd (extract_and_analyze demo_env "disk.E01" "out" "sqlite" None
                     false false false false demo_world))) /\
  rejected (parse_logfile demo_env "LogFile" "out.db" "sqlite" demo_world) demo_world.
Proof.
  destruct (extract_and_analyze_sqlite_logfile_csv demo_env demo_world "disk.E01" "out" None
              false false false false) as [H1 H2].
  split; [apply H1; simpl; constructor | apply H2; reflexivity].
Defined.

Lemma tools_return_success_dict_witness :
  exists d, fst (parse_mft demo_env "MFT" "out.csv" "csv" false true demo_world) = Ok d /\
    result_shape d.
Proof.
  exact (proj1 (tools_return_success_dict demo_env demo_world (fun _ => eq_refl) eq_refl)
           "MFT" "out.csv" "csv" false true).
Defined.

Lemma missing_codec_is_local_witness :
  fst (extract_from_image no_codec_env "disk.E01" "out" None false demo_world)
  = Ok (failure ("Missing dependency: " ++ "No module named 'pyewf'"
                 ++ ". For E01 support, install: pip install pyewf-python")) /\
  parse_logfile no_codec_env "LogFile" "out.csv" "csv" demo_world
  = parse_logfile demo_env "LogFile" "out.csv" "csv" demo_world.
Proof.
  destruct (missing_codec_is_local no_codec_env demo_world "disk.E01" "out" "No module named 'pyewf'"
              (fun _ => eq_refl) eq_refl eq_refl (fun d => ex_intro _ VNone eq_refl) eq_refl)
    as (H1 & _ & H3).
  split; [apply H1|].
  apply (H3 demo_env).
  split; [reflexivity|]. split; [|split; reflexivity].
  intros c Hc. destruct c; simpl in *; try reflexivity; contradiction.
Defined.

Lemma mft_one_record_per_slot_witness :
  List.length (MFTDecoder.parse sample_mft) = 2%nat /\
  nth_error (MFTDecoder.parse sample_mft) 1
  = Some (MFTDecoder.decode_slot 1 (MFTDecoder.slot sample_mft 1)).
Proof.
  destruct (mft_one_record_per_slot sample_mft 2) as (H1 & _ & H3 & _);
    [vm_compute; reflexivity|].
  split; [exact H1 | apply H3; lia].
Defined.

Lemma include_deleted_is_visibility_filter_witness :
  Forall (mft_call_include_deleted true)
         (w_calls (snd (parse_mft demo_env "MFT" "out.csv" "csv" false true demo_world))) /\
  MFTDecoder.parse_mft_file_records sample_mft false
  = filter (fun r => false || MFTDecoder.in_use r) (MFTDecoder.parse sample_mft).
Proof.
  destruct include_deleted_is_visibility_filter as (H1 & _ & _ & H4 & _).
  split; [apply (H1 demo_env demo_world "MFT" "out.csv" "csv" false true); simpl; constructor
        | apply H4].
Defined.

Lemma per_artifact_failures_are_local_witness :
  exists d prs,
    fst (extract_and_analyze demo_env "disk.E01" "out" "csv" None false false false false demo_world)
    = Ok d /\ dget "success" d = Some (VBool true) /\ dget "partitions" d = Some (VList prs) /\
    List.length prs = 2%nat.
Proof.
  destruct (per_artifact_failures_are_local demo_env demo_world "disk.E01" "out" "csv" None
              false false false false false
              [mkPartition 1048576 4096; mkPartition 5242880 4096]
              (enumerate_from 0 [mkPartition 1048576 4096; mkPartition 5242880 4096])
              (fun _ => eq_refl) eq_refl eq_refl (fun d => ex_intro _ VNone eq_refl)
              (ex_intro _ VNone eq_refl) eq_refl eq_refl)
    as [_ H2].
  - split; intros; eexists; reflexivity.
  - destruct (H2 eq_refl) as (d & prs & Hr & Hs & Hp & Hf).
    exists d, prs. repeat split; try assumption.
    apply Forall2_length in Hf. rewrite <- Hf. reflexivity.
Defined.

(** ** Further properties of the tool layer *)

Section Decimal.
Local Open Scope nat_scope.

Lemma string_of_nat_fuel_app (f n : nat) (acc : string) :
  (n < f)%nat -> string_of_nat_fuel f n acc = (string_of_nat_fuel f n "" ++ acc).
Proof.
  revert n acc; induction f as [|f IH]; intros n acc Hn; [lia|].
  simpl. destruct (Nat.ltb n 10) eqn:Hl; [reflexivity|].
  apply Nat.ltb_ge in Hl.
  assert (Hd : (n / 10 < f)%nat) by (pose proof (Nat.div_lt n 10); lia).
  rewrite (IH (n / 10) (String _ acc) Hd), (IH (n / 10) (String _ "") Hd).
  rewrite str_app_assoc. reflexivity.
Qed.

Lemma all_digits_app (s t : string) : all_digits (s ++ t) = all_digits s && all_digits t.
Proof. induction s as [|c s IH]; simpl; [reflexivity|]. rewrite IH, andb_assoc. reflexivity. Qed.

Lemma digits_value_app (s t : string) (a : nat) :
  digits_value (s ++ t) a = digits_value t (digits_value s a).
Proof. revert a; induction s as [|c s IH]; intros a; simpl; auto. Qed.

Lemma digit_char_spec (n : nat) :
  (n < 10)%nat -> is_digit (digit_char n) = true /\ (nat_of_ascii (digit_char n) - 48 = n)%nat.
Proof.
  intros Hn. unfold is_digit, digit_char.
  rewrite nat_ascii_embedding by lia.
  split; [apply andb_true_intro; split; apply Nat.leb_le|]; lia.
Qed.

Lemma string_of_nat_fuel_digits (f n : nat) :
  (n < f)%nat -> all_digits (string_of_nat_fuel f n "") = true /\
                 digits_value (string_of_nat_fuel f n "") 0 = n.
Proof.
  revert n; induction f as [|f IH]; intros n Hn; [lia|].
  pose proof (Nat.mod_upper_bound n 10) as Hm.
  destruct (digit_char_spec (n mod 10)) as [Hc Hv]; [lia|].
  cbn [string_of_nat_fuel]. set (dc := digit_char (n mod 10)) in *.
  destruct (Nat.ltb n 10) eqn:Hl.
  - apply Nat.ltb_lt in Hl. cbn [all_digits digits_value]. rewrite Hc, Hv.
    split; [reflexivity|]. rewrite Nat.mod_small; lia.
  - apply Nat.ltb_ge in Hl.
    assert (Hd : (n / 10 < f)%nat) by (pose proof (Nat.div_lt n 10); lia).
    rewrite (string_of_nat_fuel_app f (n / 10) _ Hd).
    destruct (IH (n / 10) Hd) as [H1 H2].
    rewrite all_digits_app, digits_value_app, H1, H2. cbn [all_digits digits_value].
    rewrite Hc, Hv. split; [reflexivity|]. pose proof (Nat.div_mod_eq n 10). lia.
Qed.

Lemma string_of_nat_digits (n : nat) :
  all_digits (string_of_nat n) = true /\ digits_value (string_of_nat n) 0 = n.
Proof. apply string_of_nat_fuel_digits. lia. Qed.

End Decimal.

(** A digit string followed by "_" is read off unambiguously. *)
Lemma digits_underscore_inj (s1 s2 x y : string) :
  all_digits s1 = true -> all_digits s2 = true ->
  (s1 ++ String "_" x) = (s2 ++ String "_" y) -> s1 = s2 /\ x = y.
Proof.
  revert s2; induction s1 as [|c1 s1 IH]; intros s2 H1 H2 H; destruct s2 as [|c2 s2]; simpl in *.
  - injection H; auto.
  - injection H as <- _. discriminate H2.
  - injection H as -> _. discriminate H1.
  - apply andb_prop in H1 as [_ H1]. apply andb_prop in H2 as [_ H2].
    injection H as -> H. destruct (IH s2 H1 H2 H) as [-> ->]. auto.
Qed.

Lemma str_app_cancel (a x y : string) : (a ++ x) = (a ++ y) -> x = y.
Proof. induction a as [|c a IH]; simpl; intros H; [exact H|]. injection H; auto. Qed.

Lemma pjoin_inj (d x y : string) : pjoin d x = pjoin d y -> x = y.
Proof.
  unfold pjoin. destruct (String.eqb (norm_path d) "."); [auto|].
  intros H. apply str_app_cancel in H. injection H; auto.
Qed.

(** X1: the per-partition file names of [extract_from_image] and
    [extract_and_analyze] ([output_dir / f"partition{i}<suffix>"], every
    suffix starting with "_") never collide: two such paths under the same
    directory are equal only for the same partition index and suffix. *)
Theorem partition_paths_distinct (d : string) (i j : Z) (s t : string)
    (Hi : (0 <= i)%Z) (Hj : (0 <= j)%Z) :
  pjoin d (part_name i ("_" ++ s)) = pjoin d (part_name j ("_" ++ t)) -> i = j /\ s = t.
Proof.
  intros H. apply pjoin_inj in H. unfold part_name in H. apply str_app_cancel in H.
  unfold string_of_Z in H.
  rewrite (proj2 (Z.ltb_ge i 0) Hi), (proj2 (Z.ltb_ge j 0) Hj) in H.
  change ("_" ++ s) with (String "_" s) in H. change ("_" ++ t) with (String "_" t) in H.
  destruct (string_of_nat_digits (Z.to_nat i)) as [Hi1 Hi2].
  destruct (string_of_nat_digits (Z.to_nat j)) as [Hj1 Hj2].
  destruct (digits_underscore_inj _ _ _ _ Hi1 Hj1 H) as [H1 H2].
  split; [|exact H2].
  rewrite H1, Hj2 in Hi2. lia.
Qed.

Lemma partition_paths_distinct_witness :
  (2 = 2 /\ "MFT" = "MFT")%Z.
Proof.
  apply (partition_paths_distinct "out" 2 2 "MFT" "MFT"); [lia | lia | reflexivity].
Defined.

Lemma enumerate_from_spec (i : Z) (ps : list Partition) :
  map snd (enumerate_from i ps) = ps /\
  map fst (enumerate_from i ps) = map (fun k => (i + Z.of_nat k)%Z) (seq 0 (List.length ps)).
Proof.
  revert i; induction ps as [|p ps IH]; intros i; simpl; [auto|].
  destruct (IH (i + 1)%Z) as [H1 H2]. rewrite H1, H2. split; [reflexivity|].
  f_equal; [lia|]. rewrite <- seq_shift, map_map. apply map_ext. intros k. lia.
Qed.

Lemma select_partitions_none (ps : list Partition) (k : Z) :
  select_partitions (Some k) ps = None <-> (k < 0 \/ Z.of_nat (List.length ps) <= k)%Z.
Proof.
  unfold select_partitions.
  destruct (Z.ltb_spec k 0); simpl; [split; auto|].
  destruct (Z.geb_spec k (Z.of_nat (List.length ps))); [split; auto; lia|].
  destruct (nth_error ps (Z.to_nat k)) eqn:Hn.
  - split; [discriminate | lia].
  - apply nth_error_None in Hn. lia.
Qed.

Lemma select_partitions_some (ps : list Partition) (k : Z) (todo : list (Z * Partition)) :
  select_partitions (Some k) ps = Some todo ->
  exists p, nth_error ps (Z.to_nat k) = Some p /\ todo = [(k, p)].
Proof.
  unfold select_partitions. destruct (_ || _); [discriminate|].
  destruct (nth_error ps (Z.to_nat k)) as [p|]; [|discriminate].
  intros H; injection H as <-. eauto.
Qed.

(** X2: [partitions_to_process]: without a [partition] argument every
    partition is processed, in order, under its index 0..n-1; an index
    outside [0, n) is refused; a valid index [k] selects exactly
    [(k, partitions[k])]. *)
Theorem partitions_to_process_spec (ps : list Partition) :
  (exists todo, select_partitions None ps = Some todo /\
     map snd todo = ps /\ map fst todo = map Z.of_nat (seq 0 (List.length ps))) /\
  (forall k, select_partitions (Some k) ps = None <-> (k < 0 \/ Z.of_nat (List.length ps) <= k)%Z) /\
  (forall k todo, select_partitions (Some k) ps = Some todo ->
     exists p, nth_error ps (Z.to_nat k) = Some p /\ todo = [(k, p)]).
Proof.
  split; [|split; [apply select_partitions_none | apply select_partitions_some]].
  exists (enumerate_from 0 ps). destruct (enumerate_from_spec 0 ps) as [H1 H2].
  split; [reflexivity|]. split; [exact H1|]. rewrite H2. apply map_ext. intros k. lia.
Qed.

Lemma partitions_to_process_spec_witness :
  exists p, nth_error [mkPartition 1048576 4096; mkPartition 5242880 4096] 1 = Some p /\
    [(1%Z, mkPartition 5242880 4096)] = [(1%Z, p)].
Proof.
  apply (proj2 (proj2 (partitions_to_process_spec
                         [mkPartition 1048576 4096; mkPartition 5242880 4096])) 1%Z).
  reflexivity.
Defined.

Arguments select_partitions : simpl never.

Lemma add_file_mem (p : string) (w : world) : existsb (String.eqb p) (w_files (add_file p w)) = true.
Proof.
  unfold add_file; simpl. destruct (existsb (String.eqb p) (w_files w)) eqn:H; [exact H|].
  rewrite existsb_app. simpl. rewrite String.eqb_refl. apply orb_true_r.
Qed.

(** X3: [extract_from_image] with a [partition] index outside the found
    partitions returns "Invalid partition: k (valid: 0-(n-1))" after
    creating [output_dir] and opening the image, and builds no extractor. *)
Theorem extract_from_image_invalid_partition (E : env) (w : world) (img od : string) (k : Z)
    (verbose : bool) (ps : list Partition)
    (Hi : e_import E "image_handler" = None) (Hd : w_denied w = [])
    (Hex : file_exists w img = true)
    (Hmk : exists v, e_call E (CMkdir od) = Ok v)
    (Ho : exists v, e_call E (COpenImage img) = Ok v)
    (Hps : e_partitions E img = Ok ps)
    (Hk : (k < 0 \/ Z.of_nat (List.length ps) <= k)%Z) :
  fst (extract_from_image E img od (Some k) verbose w)
  = Ok (failure ("Invalid partition: " ++ string_of_Z k ++ " (valid: 0-"
                 ++ string_of_Z (Z.of_nat (List.length ps) - 1) ++ ")")) /\
  w_calls (snd (extract_from_image E img od (Some k) verbose w))
  = (w_calls w ++ [CMkdir od; COpenImage img])%list /\
  file_exists (snd (extract_from_image E img od (Some k) verbose w)) od = true.
Proof.
  destruct Hmk as [v1 Hv1]. destruct Ho as [vo Hvo].
  apply select_partitions_none in Hk.
  unfold extract_from_image.
  rewrite bind_import_ok by exact Hi. rewrite bind_exists_ok by exact Hd. rewrite Hex.
  simpl. unfold try_except2, try_except.
  rewrite (bind_invoke_ok _ _ _ _ _ Hv1), (bind_invoke_ok _ _ _ _ _ Hvo).
  unfold find_partitions. rewrite (bind_ok _ _ _ _ _ (f_equal (fun r => (r, _)) Hps)).
  rewrite Hk. simpl. split; [reflexivity|]. split.
  - rewrite <- app_assoc. reflexivity.
  - unfold file_exists. apply add_file_mem.
Qed.

Lemma extract_from_image_invalid_partition_witness :
  w_calls (snd (extract_from_image demo_env "disk.E01" "out" (Some 2%Z) false demo_world))
  = [CMkdir "out"; COpenImage "disk.E01"].
Proof.
  apply (proj1 (proj2 (extract_from_image_invalid_partition demo_env demo_world "disk.E01" "out"
                         2 false [mkPartition 1048576 4096; mkPartition 5242880 4096]
                         eq_refl eq_refl eq_refl (ex_intro _ VNone eq_refl)
                         (ex_intro _ VNone eq_refl) eq_refl ltac:(simpl; lia)))).
Defined.

(** X4: [extract_and_analyze] with a [partition] index outside the found
    partitions returns "Invalid partition: k" after creating the output
    directory and its temp_extracted subdirectory, and the temporary
    directory is left in place whatever [keep_temp] says: no cleanup runs. *)
Theorem extract_and_analyze_invalid_partition (E : env) (w : world) (img od fmt : string)
    (k : Z) (sm su sl kt : bool) (ps : list Partition)
    (Hi : forall m, e_import E m = None) (Hd : w_denied w = [])
    (Hex : file_exists w img = true) (Hf : in_formats fmt mft_formats = true)
    (Hmk : forall d, exists v, e_call E (CMkdir d) = Ok v)
    (Ho : exists v, e_call E (COpenImage img) = Ok v)
    (Hps : e_partitions E img = Ok ps)
    (Hk : (k < 0 \/ Z.of_nat (List.length ps) <= k)%Z) :
  fst (extract_and_analyze E img od fmt (Some k) sm su sl kt w)
  = Ok (failure ("Invalid partition: " ++ string_of_Z k)) /\
  w_calls (snd (extract_and_analyze E img od fmt (Some k) sm su sl kt w))
  = (w_calls w ++ [CMkdir (norm_path od); CMkdir (pjoin (norm_path od) "temp_extracted");
                   COpenImage img])%list /\
  file_exists (snd (extract_and_analyze E img od fmt (Some k) sm su sl kt w))
              (pjoin (norm_path od) "temp_extracted") = true.
Proof.
  destruct Ho as [vo Hvo].
  destruct (Hmk (norm_path od)) as [v1 Hv1].
  destruct (Hmk (pjoin (norm_path od) "temp_extracted")) as [v2 Hv2].
  apply select_partitions_none in Hk.
  unfold extract_and_analyze.
  rewrite !bind_import_ok by apply Hi. rewrite bind_exists_ok by exact Hd. rewrite Hex.
  simpl. rewrite Hf. simpl. unfold try_except2, try_except.
  rewrite (bind_invoke_ok _ _ _ _ _ Hv1), (bind_invoke_ok _ _ _ _ _ Hv2),
          (bind_invoke_ok _ _ _ _ _ Hvo).
  unfold find_partitions. rewrite (bind_ok _ _ _ _ _ (f_equal (fun r => (r, _)) Hps)).
  rewrite Hk. simpl. split; [reflexivity|]. split.
  - rewrite <- !app_assoc. reflexivity.
  - unfold file_exists. apply add_file_mem.
Qed.

Lemma extract_and_analyze_invalid_partition_witness :
  file_exists (snd (extract_and_analyze demo_env "disk.E01" "out" "csv" (Some 5%Z)
                      false false false false demo_world)) "out/temp_extracted" = true.
Proof.
  apply (proj2 (proj2 (extract_and_analyze_invalid_partition demo_env demo_world "disk.E01" "out"
                         "csv" 5 false false false false
                         [mkPartition 1048576 4096; mkPartition 5242880 4096]
                         (fun _ => eq_refl) eq_refl eq_refl eq_refl
                         (fun _ => ex_intro _ VNone eq_refl) (ex_intro _ VNone eq_refl)
                         eq_refl ltac:(simpl; lia)))).
Defined.

(** X5: once the partition loop of [extract_and_analyze] completes, the
    cleanup of temp_extracted never fails the run: with [keep_temp] no
    "temp_cleaned" key is set, otherwise "temp_cleaned" is True when
    [shutil.rmtree] succeeds and False when it raises, and [success] stays
    True either way. *)
Theorem extract_and_analyze_cleanup (E : env) (w : world) (img od fmt : string)
    (partition : option Z) (sm su sl kt : bool)
    (ps : list Partition) (todo : list (Z * Partition))
    (Hi : forall m, e_import E m = None) (Hd : w_denied w = [])
    (Hex : file_exists w img = true) (Hf : in_formats fmt mft_formats = true)
    (Hmk : forall d, exists v, e_call E (CMkdir d) = Ok v)
    (Ho : exists v, e_call E (COpenImage img) = Ok v)
    (Hps : e_partitions E img = Ok ps)
    (Hsel : select_partitions partition ps = Some todo)
    (Hx : extractor_returns E) :
  exists d, fst (extract_and_analyze E img od fmt partition sm su sl kt w) = Ok d /\
    dget "success" d = Some (VBool true) /\
    dget "temp_cleaned" d
    = (if kt then None
       else Some (VBool (match e_call E (CRmtree (pjoin (norm_path od) "temp_extracted")) with
                         | Ok _ => true
                         | Raise _ => false
                         end))).
Proof.
  destruct Ho as [vo Hvo].
  destruct w as [fs dn cs]; simpl in Hd; subst dn.
  unfold extract_and_analyze.
  rewrite !bind_import_ok by apply Hi. rewrite bind_exists_ok by reflexivity. rewrite Hex.
  simpl. rewrite Hf. simpl. unfold try_except2, try_except.
  destruct (Hmk (norm_path od)) as [v1 Hv1]. rewrite (bind_invoke_ok _ _ _ _ _ Hv1).
  destruct (Hmk (pjoin (norm_path od) "temp_extracted")) as [v2 Hv2].
  rewrite (bind_invoke_ok _ _ _ _ _ Hv2), (bind_invoke_ok _ _ _ _ _ Hvo).
  unfold find_partitions.
  rewrite (bind_ok _ _ _ _ _ (f_equal (fun r => (r, _)) Hps)). rewrite Hsel.
  match goal with |- context [bind (analyze_loop E ?a ?b ?c ?d ?e ?f ?g todo []) _ ?w0] =>
    destruct (analyze_loop_entries E a b c d e f g todo Hx [] w0) as (prs & w1 & Hl & _ & _);
    [reflexivity|] end.
  rewrite (bind_ok _ _ _ _ _ Hl). simpl.
  destruct kt.
  - simpl. eexists. split; [reflexivity|]. auto.
  - unfold bind, try_except, invoke.
    destruct (e_call E (CRmtree _)); simpl; eexists; split; try reflexivity; auto.
Qed.

Lemma extract_and_analyze_cleanup_witness :
  exists d, fst (extract_and_analyze demo_env "disk.E01" "out" "csv" None
                   false false false false demo_world) = Ok d /\
    dget "success" d = Some (VBool true) /\ dget "temp_cleaned" d = Some (VBool true).
Proof.
  destruct (extract_and_analyze_cleanup demo_env demo_world "disk.E01" "out" "csv" None
              false false false false
              [mkPartition 1048576 4096; mkPartition 5242880 4096]
              (enumerate_from 0 [mkPartition 1048576 4096; mkPartition 5242880 4096])
              (fun _ => eq_refl) eq_refl eq_refl eq_refl (fun _ => ex_intro _ VNone eq_refl)
              (ex_intro _ VNone eq_refl) eq_refl eq_refl)
    as (d & H1 & H2 & H3).
  - split; intros; eexists; reflexivity.
  - exists d. split; [exact H1|]. split; [exact H2|]. rewrite H3. reflexivity.
Defined.

(** X6: [extract_from_image] with a valid [partition] index [k] processes
    that partition only, yet reports [total_partitions] as the number of
    partitions found: its one entry carries index [k] and the offset and
    cluster size of [partitions[k]]. *)
Theorem extract_from_image_one_partition (E : env) (w : world) (img od : string) (k : Z)
    (verbose : bool) (ps : list Partition)
    (Hi : e_import E "image_handler" = None) (Hd : w_denied w = [])
    (Hex : file_exists w img = true)
    (Hmk : exists v, e_call E (CMkdir od) = Ok v)
    (Ho : exists v, e_call E (COpenImage img) = Ok v)
    (Hps : e_partitions E img = Ok ps)
    (Hk : (0 <= k < Z.of_nat (List.length ps))%Z)
    (Hx : extractor_returns E) :
  exists d p ex, fst (extract_from_image E img od (Some k) verbose w) = Ok d /\
    nth_error ps (Z.to_nat k) = Some p /\
    dget "success" d = Some (VBool true) /\
    dget "partitions" d
    = Some (VList [VDict [("partition", VInt k); ("offset", VInt (part_offset p));
                          ("cluster_size", VInt (part_cluster_size p));
                          ("extracted", VDict ex)]]) /\
    dget "total_partitions" d = Some (VInt (Z.of_nat (List.length ps))).
Proof.
  destruct Hmk as [v1 Hv1]. destruct Ho as [vo Hvo].
  destruct (select_partitions (Some k) ps) as [todo|] eqn:Hsel.
  2: { apply select_partitions_none in Hsel. lia. }
  destruct (select_partitions_some _ _ _ Hsel) as (p & Hp & ->).
  unfold extract_from_image.
  rewrite bind_import_ok by exact Hi. rewrite bind_exists_ok by exact Hd. rewrite Hex.
  simpl. unfold try_except2, try_except.
  rewrite (bind_invoke_ok _ _ _ _ _ Hv1), (bind_invoke_ok _ _ _ _ _ Hvo).
  unfold find_partitions. rewrite (bind_ok _ _ _ _ _ (f_equal (fun r => (r, _)) Hps)).
  rewrite Hsel.
  match goal with |- context [bind (extract_loop E od verbose [(k, p)] []) _ ?w0] =>
    destruct (extract_loop_entries E od verbose [(k, p)] Hx [] w0) as (prs & w1 & Hl & Hf) end.
  rewrite (bind_ok _ _ _ _ _ Hl). simpl.
  inversion Hf as [|ip e l1 l2 He Hnil]; subst. inversion Hnil; subst.
  destruct He as (ex & -> & _).
  eexists _, p, ex. split; [reflexivity|]. auto.
Qed.

Lemma extract_from_image_one_partition_witness :
  exists d p ex, fst (extract_from_image demo_env "disk.E01" "out" (Some 1%Z) false demo_world)
                 = Ok d /\
    nth_error [mkPartition 1048576 4096; mkPartition 5242880 4096] 1 = Some p /\
    dget "success" d = Some (VBool true) /\
    dget "partitions" d
    = Some (VList [VDict [("partition", VInt 1); ("offset", VInt (part_offset p));
                          ("cluster_size", VInt (part_cluster_size p));
                          ("extracted", VDict ex)]]) /\
    dget "total_partitions" d = Some (VInt 2).
Proof.
  apply (extract_from_image_one_partition demo_env demo_world "disk.E01" "out" 1 false
           [mkPartition 1048576 4096; mkPartition 5242880 4096]
           eq_refl eq_refl eq_refl (ex_intro _ VNone eq_refl) (ex_intro _ VNone eq_refl)
           eq_refl ltac:(simpl; lia)).
  split; intros; eexists; reflexivity.
Defined.

(** X7: the validation order and messages of the three parse tools: a
    missing [input_path] is reported first, as "Input file not found";
    [parse_usnjrnl] then reports a supplied, non-empty, missing [mft_path]
    before looking at the format; an unrecognised format is reported last,
    with each tool's own message.  Each failure leaves the state as it was. *)
Theorem parse_tools_validation_order (E : env) (w : world) (input output fmt : string)
    (active_only include_path : bool) (mft_path : option string)
    (Hi : forall m, e_import E m = None) (Hd : w_denied w = []) :
  (file_exists w input = false ->
     parse_mft E input output fmt active_only include_path w
       = (Ok (failure ("Input file not found: " ++ input)), w) /\
     parse_usnjrnl E input output fmt mft_path w
       = (Ok (failure ("Input file not found: " ++ input)), w) /\
     parse_logfile E input output fmt w
       = (Ok (failure ("Input file not found: " ++ input)), w)) /\
  (forall p, file_exists w input = true -> mft_path = Some p -> p <> "" ->
     file_exists w p = false ->
     parse_usnjrnl E input output fmt mft_path w = (Ok (failure ("MFT file not found: " ++ p)), w)) /\
  (file_exists w input = true -> in_formats fmt mft_formats = false ->
     parse_mft E input output fmt active_only include_path w
       = (Ok (failure ("Invalid format: " ++ fmt ++ ". Use csv, json, or sqlite")), w) /\
     (supplied_found w mft_path = true ->
        parse_usnjrnl E input output fmt mft_path w
        = (Ok (failure ("Invalid format: " ++ fmt ++ ". Use csv, json, or sqlite")), w))) /\
  (file_exists w input = true -> in_formats fmt logfile_formats = false ->
     parse_logfile E input output fmt w
     = (Ok (failure ("Invalid format: " ++ fmt ++ ". LogFile supports csv or json only")), w)).
Proof.
  split; [|split; [|split]].
  - intros Hin. split; [|split];
      [unfold parse_mft | unfold parse_usnjrnl | unfold parse_logfile];
      rewrite bind_import_ok by apply Hi; rewrite bind_exists_ok by exact Hd;
      rewrite Hin; reflexivity.
  - intros p Hin -> Hne Hp. unfold parse_usnjrnl.
    rewrite bind_import_ok by apply Hi; rewrite bind_exists_ok by exact Hd; rewrite Hin.
    simpl. apply String.eqb_neq in Hne. rewrite Hne. simpl.
    rewrite bind_exists_ok by exact Hd. rewrite Hp. reflexivity.
  - intros Hin Hf. split.
    + unfold parse_mft.
      rewrite bind_import_ok by apply Hi; rewrite bind_exists_ok by exact Hd; rewrite Hin.
      simpl. rewrite Hf. reflexivity.
    + intros Hm. unfold parse_usnjrnl.
      rewrite bind_import_ok by apply Hi; rewrite bind_exists_ok by exact Hd; rewrite Hin.
      simpl. destruct mft_path as [p|]; simpl.
      * simpl in Hm. destruct (String.eqb p "") eqn:Hp; simpl.
        -- rewrite Hf. reflexivity.
        -- rewrite bind_exists_ok by exact Hd. simpl in Hm. rewrite Hm. simpl. rewrite Hf.
           reflexivity.
      * rewrite Hf. reflexivity.
  - intros Hin Hf. unfold parse_logfile.
    rewrite bind_import_ok by apply Hi; rewrite bind_exists_ok by exact Hd; rewrite Hin.
    simpl. rewrite Hf. reflexivity.
Qed.

Lemma parse_tools_validation_order_witness :
  parse_usnjrnl demo_env "UsnJrnl_J" "out.csv" "xml" (Some "nope") demo_world
  = (Ok (failure ("MFT file not found: " ++ "nope")), demo_world).
Proof.
  apply (proj1 (proj2 (parse_tools_validation_order demo_env demo_world "UsnJrnl_J" "out.csv"
                         "xml" false true (Some "nope") (fun _ => eq_refl) eq_refl))
           "nope"); try reflexivity. discriminate.
Defined.

Lemma check_inputs_found (w : world) (o : option string) (name : string)
    (l : list (option string * string)) :
  w_denied w = [] -> supplied_found w o = true -> check_inputs ((o, name) :: l) w = check_inputs l w.
Proof.
  intros Hd Hs. destruct o as [p|]; [|reflexivity]. simpl in Hs |- *.
  destruct (String.eqb p "") eqn:Hp; simpl; [reflexivity|].
  rewrite bind_exists_ok by exact Hd. simpl in Hs. rewrite Hs. reflexivity.
Qed.

Lemma check_inputs_missing (w : world) (p name : string) (l : list (option string * string)) :
  w_denied w = [] -> p <> "" -> file_exists w p = false ->
  check_inputs ((Some p, name) :: l) w = (Ok (Some (name ++ " file not found: " ++ p)), w).
Proof.
  intros Hd Hne Hp. simpl. apply String.eqb_neq in Hne. rewrite Hne. simpl.
  rewrite bind_exists_ok by exact Hd. rewrite Hp. reflexivity.
Qed.

Lemma truthy_opt_some (p : string) : p <> "" -> truthy_opt (Some p) = true.
Proof. intros H. simpl. apply String.eqb_neq in H. rewrite H. reflexivity. Qed.

(** X8: the validation order of [analyze_artifacts]: the existence checks
    run in the order MFT, UsnJrnl, LogFile and report the first supplied,
    non-empty, missing path as "<name> file not found: <path>", whatever
    the other inputs and the format; the format is checked only after all
    supplied inputs were found.  Each failure leaves the state as it was. *)
Theorem analyze_artifacts_validation_order (E : env) (w : world) (od fmt : string)
    (mft usn log : option string)
    (Hi : e_import E "analyzer" = None) (Hd : w_denied w = []) :
  (forall p, mft = Some p -> p <> "" -> file_exists w p = false ->
     analyze_artifacts E od fmt mft usn log w = (Ok (failure ("MFT file not found: " ++ p)), w)) /\
  (forall q, supplied_found w mft = true -> usn = Some q -> q <> "" -> file_exists w q = false ->
     analyze_artifacts E od fmt mft usn log w
     = (Ok (failure ("UsnJrnl file not found: " ++ q)), w)) /\
  (forall r, supplied_found w mft = true -> supplied_found w usn = true ->
     log = Some r -> r <> "" -> file_exists w r = false ->
     analyze_artifacts E od fmt mft usn log w
     = (Ok (failure ("LogFile file not found: " ++ r)), w)) /\
  (truthy_opt mft || truthy_opt usn || truthy_opt log = true ->
     supplied_found w mft = true -> supplied_found w usn = true -> supplied_found w log = true ->
     in_formats fmt mft_formats = false ->
     analyze_artifacts E od fmt mft usn log w = (Ok (failure ("Invalid format: " ++ fmt)), w)).
Proof.
  split; [|split; [|split]].
  - intros p -> Hne Hp. unfold analyze_artifacts. rewrite bind_import_ok by exact Hi.
    rewrite (truthy_opt_some p Hne). cbn [orb negb].
    rewrite (bind_ok _ _ _ _ _ (check_inputs_missing w p "MFT" _ Hd Hne Hp)). reflexivity.
  - intros q Hm -> Hne Hq. unfold analyze_artifacts. rewrite bind_import_ok by exact Hi.
    rewrite (truthy_opt_some q Hne), orb_true_r. cbn [orb negb].
    rewrite (bind_ok _ _ _ _ _ (eq_trans (check_inputs_found w mft "MFT" _ Hd Hm)
                                         (check_inputs_missing w q "UsnJrnl" _ Hd Hne Hq))).
    reflexivity.
  - intros r Hm Hu -> Hne Hr. unfold analyze_artifacts. rewrite bind_import_ok by exact Hi.
    rewrite (truthy_opt_some r Hne), orb_true_r. cbn [orb negb].
    rewrite (bind_ok _ _ _ _ _
               (eq_trans (check_inputs_found w mft "MFT" _ Hd Hm)
                  (eq_trans (check_inputs_found w usn "UsnJrnl" _ Hd Hu)
                            (check_inputs_missing w r "LogFile" _ Hd Hne Hr)))).
    reflexivity.
  - intros Hg Hm Hu Hl Hf. unfold analyze_artifacts. rewrite bind_import_ok by exact Hi.
    rewrite Hg. cbn [negb].
    rewrite (bind_ok _ _ _ _ _
               (eq_trans (check_inputs_found w mft "MFT" _ Hd Hm)
                  (eq_trans (check_inputs_found w usn "UsnJrnl" _ Hd Hu)
                     (eq_trans (check_inputs_found w log "LogFile" [] Hd Hl)
                               (eq_refl : check_inputs [] w = (Ok None, w)))))).
    rewrite Hf. reflexivity.
Qed.

Lemma analyze_artifacts_validation_order_witness :
  analyze_artifacts demo_env "out" "xml" (Some "MFT") (Some "gone_J") (Some "gone_Log") demo_world
  = (Ok (failure ("UsnJrnl file not found: " ++ "gone_J")), demo_world).
Proof.
  apply (proj1 (proj2 (analyze_artifacts_validation_order demo_env demo_world "out" "xml"
                         (Some "MFT") (Some "gone_J") (Some "gone_Log") eq_refl eq_refl))
           "gone_J"); try reflexivity. discriminate.
Defined.

Lemma bind_mft_check_ok {A} (o : option string) (k : bool -> M A) (w : world) :
  w_denied w = [] -> supplied_found w o = true ->
  bind (match o with
        | Some p => if truthy_opt o then path_exists p else ret true
        | None => ret true
        end) k w = k true w.
Proof.
  intros Hd Hs. destruct o as [p|]; [|reflexivity]. simpl in Hs |- *.
  destruct (String.eqb p "") eqn:Hp; simpl; [reflexivity|].
  rewrite bind_exists_ok by exact Hd. simpl in Hs. rewrite Hs. reflexivity.
Qed.

(** X9: once its input checks pass, each parse tool turns an exception of
    the decoder into [{"success": False, "error": str(e)}]; the calls made up
    to the failing one are the only trace it leaves, and no output file is
    recorded. *)
Theorem parse_tools_decoder_exception (E : env) (w : world) (input output fmt : string)
    (active_only include_path : bool) (mft_path : option string) (e : exn)
    (Hi : forall m, e_import E m = None) (Hd : w_denied w = [])
    (Hin : file_exists w input = true) :
  (in_formats fmt mft_formats = true ->
     (e_call E (CMFTParser input) = Raise e ->
        parse_mft E input output fmt active_only include_path w
        = (Ok (failure (exn_str e)), log_call (CMFTParser input) w)) /\
     (forall v, e_call E (CMFTParser input) = Ok v ->
        e_call E (CParseMFT input output (negb active_only) fmt include_path) = Raise e ->
        parse_mft E input output fmt active_only include_path w
        = (Ok (failure (exn_str e)),
           log_call (CParseMFT input output (negb active_only) fmt include_path)
                    (log_call (CMFTParser input) w)))) /\
  (supplied_found w mft_path = true -> in_formats fmt mft_formats = true ->
     (e_call E (CStat input) = Raise e ->
        parse_usnjrnl E input output fmt mft_path w
        = (Ok (failure (exn_str e)), log_call (CStat input) w)) /\
     (forall v, e_call E (CStat input) = Ok v ->
        e_call E (CParseUsn input output mft_path fmt (truthy_opt mft_path)) = Raise e ->
        parse_usnjrnl E input output fmt mft_path w
        = (Ok (failure (exn_str e)),
           log_call (CParseUsn input output mft_path fmt (truthy_opt mft_path))
                    (log_call (CStat input) w)))) /\
  (in_formats fmt logfile_formats = true ->
     e_call E (CParseLog input output fmt) = Raise e ->
     parse_logfile E input output fmt w
     = (Ok (failure (exn_str e)), log_call (CParseLog input output fmt) w)).
Proof.
  split; [|split].
  - intros Hf. split.
    + intros He. unfold parse_mft.
      rewrite bind_import_ok by apply Hi; rewrite bind_exists_ok by exact Hd; rewrite Hin.
      cbn [negb]. rewrite Hf. cbn [negb].
      unfold try_except, bind, invoke. rewrite He. reflexivity.
    + intros v H1 He. unfold parse_mft.
      rewrite bind_import_ok by apply Hi; rewrite bind_exists_ok by exact Hd; rewrite Hin.
      cbn [negb]. rewrite Hf. cbn [negb].
      unfold try_except, bind, invoke. rewrite H1. cbn [call_effect].
      rewrite He. reflexivity.
  - intros Hm Hf. split.
    + intros He. unfold parse_usnjrnl.
      rewrite bind_import_ok by apply Hi; rewrite bind_exists_ok by exact Hd; rewrite Hin.
      cbn [negb]. rewrite bind_mft_check_ok by assumption. cbn [negb]. rewrite Hf. cbn [negb].
      unfold try_except, bind, invoke. rewrite He. reflexivity.
    + intros v H1 He. unfold parse_usnjrnl.
      rewrite bind_import_ok by apply Hi; rewrite bind_exists_ok by exact Hd; rewrite Hin.
      cbn [negb]. rewrite bind_mft_check_ok by assumption. cbn [negb]. rewrite Hf. cbn [negb].
      unfold try_except, bind, invoke. rewrite H1. cbn [call_effect].
      rewrite He. reflexivity.
  - intros Hf He. unfold parse_logfile.
    rewrite bind_import_ok by apply Hi; rewrite bind_exists_ok by exact Hd; rewrite Hin.
    cbn [negb]. rewrite Hf. cbn [negb].
    unfold try_except, bind, invoke. rewrite He. reflexivity.
Qed.

Lemma parse_tools_decoder_exception_witness :
  parse_mft demo_env "MFT" "out.csv" "csv" false true demo_world
  = (Ok (failure "bad MFT"),
     log_call (CParseMFT "MFT" "out.csv" true "csv" true) (log_call (CMFTParser "MFT") demo_world)).
Proof.
  apply (proj2 (proj1 (parse_tools_decoder_exception demo_env demo_world "MFT" "out.csv" "csv"
                         false true None (OtherError "bad MFT") (fun _ => eq_refl) eq_refl eq_refl)
                  eq_refl) VNone); reflexivity.
Defined.

(** X10: once the checks of [analyze_artifacts] pass, it builds
    [UnifiedAnalyzer(output_dir)] and calls [analyze_all] with the three
    paths exactly as given (an empty string included).  An exception of
    either call is returned as [{"success": False, "error": str(e)}];
    otherwise the result carries the path returned by [analyze_all] and
    echoes the three inputs unchanged. *)
Theorem analyze_artifacts_run (E : env) (w : world) (od fmt : string)
    (mft usn log : option string) (e : exn)
    (Hi : e_import E "analyzer" = None) (Hd : w_denied w = [])
    (Hg : truthy_opt mft || truthy_opt usn || truthy_opt log = true)
    (Hm : supplied_found w mft = true) (Hu : supplied_found w usn = true)
    (Hl : supplied_found w log = true) (Hf : in_formats fmt mft_formats = true) :
  (e_call E (CAnalyzer od) = Raise e ->
     analyze_artifacts E od fmt mft usn log w
     = (Ok (failure (exn_str e)), log_call (CAnalyzer od) w)) /\
  (forall v, e_call E (CAnalyzer od) = Ok v ->
     e_call E (CAnalyzeAll mft log usn fmt) = Raise e ->
     analyze_artifacts E od fmt mft usn log w
     = (Ok (failure (exn_str e)),
        log_call (CAnalyzeAll mft log usn fmt) (log_call (CAnalyzer od) w))) /\
  (forall v r, e_call E (CAnalyzer od) = Ok v ->
     e_call E (CAnalyzeAll mft log usn fmt) = Ok r ->
     analyze_artifacts E od fmt mft usn log w
     = (Ok [("success", VBool true); ("elapsed_seconds", VFloat (e_elapsed E));
            ("output_path", r); ("format", VStr fmt);
            ("inputs", VDict [("mft", opt_val mft); ("usnjrnl", opt_val usn);
                              ("logfile", opt_val log)])],
        log_call (CAnalyzeAll mft log usn fmt) (log_call (CAnalyzer od) w))).
Proof.
  assert (Hc : check_inputs [(mft, "MFT"); (usn, "UsnJrnl"); (log, "LogFile")] w = (Ok None, w)).
  { rewrite (check_inputs_found w mft "MFT" _ Hd Hm), (check_inputs_found w usn "UsnJrnl" _ Hd Hu),
      (check_inputs_found w log "LogFile" [] Hd Hl). reflexivity. }
  unfold analyze_artifacts. rewrite bind_import_ok by exact Hi. rewrite Hg. cbn [negb].
  rewrite (bind_ok _ _ _ _ _ Hc). rewrite Hf. cbn [negb].
  split; [|split].
  - intros He. unfold try_except, bind, invoke. rewrite He. reflexivity.
  - intros v H1 He. unfold try_except, bind, invoke. rewrite H1. cbn [call_effect].
    rewrite He. reflexivity.
  - intros v r H1 H2. unfold try_except, bind, invoke. rewrite H1. cbn [call_effect].
    rewrite H2. reflexivity.
Qed.

Lemma analyze_artifacts_run_witness :
  analyze_artifacts demo_env "out" "csv" (Some "MFT") (Some "") None demo_world
  = (Ok [("success", VBool true); ("elapsed_seconds", VFloat 1);
         ("output_path", VStr "out/timeline.csv"); ("format", VStr "csv");
         ("inputs", VDict [("mft", VStr "MFT"); ("usnjrnl", VStr ""); ("logfile", VNone)])],
     log_call (CAnalyzeAll (Some "MFT") None (Some "") "csv") (log_call (CAnalyzer "out") demo_world)).
Proof.
  apply (proj2 (proj2 (analyze_artifacts_run demo_env demo_world "out" "csv" (Some "MFT") (Some "")
                         None (OtherError "") eq_refl eq_refl eq_refl eq_refl eq_refl eq_refl
                         eq_refl)) VNone (VStr "out/timeline.csv")); reflexivity.
Defined.

Lemma keeps_bind_ret {A B} (P : call -> Prop) (a : A) (k : A -> M B) :
  keeps P (k a) -> keeps P (bind (ret a) k).
Proof. intros H w Hw. exact (H w Hw). Qed.

Lemma analyze_one_skips (E : env) (op td fmt ext : string) (sm su sl : bool) (i : Z)
    (p : Partition) :
  keeps (respects_skips sm su sl) (analyze_one E op td fmt ext sm su sl i p).
Proof.
  unfold analyze_one, analyze_mft_step, analyze_usnjrnl_step, analyze_logfile_step.
  cbv zeta. destruct sm, su, sl; cbv beta iota;
  repeat first [ apply keeps_ret | apply keeps_path_exists
               | match goal with
                 | |- keeps _ (bind (ret _) _) => apply keeps_bind_ret; cbv beta iota
                 end
               | apply keeps_invoke; simpl; auto
               | apply keeps_bind; [|intros]
               | apply keeps_try; [|intros]
               | match goal with
                 | |- keeps _ (if ?b then _ else _) => destruct b
                 end ].
  all: simpl; intuition.
Qed.

Lemma analyze_loop_skips (E : env) (op td fmt ext : string) (sm su sl : bool)
    (todo : list (Z * Partition)) (acc : list pyval) :
  keeps (respects_skips sm su sl) (analyze_loop E op td fmt ext sm su sl todo acc).
Proof.
  revert acc; induction todo as [|[i p] rest IH]; intros acc; simpl.
  - apply keeps_ret.
  - apply keeps_bind; [apply analyze_one_skips|intros; apply IH].
Qed.

(** X11: [extract_and_analyze] honours its skip flags: with [skip_mft] no
    $MFT is extracted or decoded and the UsnJrnl decoder gets neither an MFT
    path nor [include_path=True]; with [skip_usnjrnl] or [skip_logfile] that
    artifact is neither extracted nor decoded. *)
Theorem extract_and_analyze_respects_skips (E : env) (w : world) (img od fmt : string)
    (partition : option Z) (skip_mft skip_usnjrnl skip_logfile keep_temp : bool) :
  Forall (respects_skips skip_mft skip_usnjrnl skip_logfile) (w_calls w) ->
  Forall (respects_skips skip_mft skip_usnjrnl skip_logfile)
    (w_calls (snd (extract_and_analyze E img od fmt partition
                     skip_mft skip_usnjrnl skip_logfile keep_temp w))).
Proof.
  revert w. unfold extract_and_analyze. cbv zeta. keep.
  all: apply analyze_loop_skips.
Qed.

Lemma extract_and_analyze_respects_skips_witness :
  Forall (respects_skips true false false)
    (w_calls (snd (extract_and_analyze demo_env "disk.E01" "out" "csv" None
                     true false false false demo_world))).
Proof.
  apply extract_and_analyze_respects_skips. constructor.
Defined.

Lemma analyze_one_format (E : env) (op td fmt : string) (sm su sl : bool) (i : Z)
    (p : Partition) :
  String.eqb fmt "sqlite" = false ->
  keeps (format_run_call fmt) (analyze_one E op td fmt ("." ++ fmt) sm su sl i p).
Proof.
  intros Hs.
  unfold analyze_one, analyze_mft_step, analyze_usnjrnl_step, analyze_logfile_step.
  cbv zeta. rewrite Hs. keep.
  all: split; [reflexivity|].
  all: first [ exact (pjoin_part_ends _ _ "_MFT" ("." ++ fmt))
             | exact (pjoin_part_ends _ _ "_UsnJrnl" ("." ++ fmt))
             | exact (pjoin_part_ends _ _ "_LogFile" ("." ++ fmt)) ].
Qed.

Lemma analyze_loop_format (E : env) (op td fmt : string) (sm su sl : bool)
    (todo : list (Z * Partition)) (acc : list pyval) :
  String.eqb fmt "sqlite" = false ->
  keeps (format_run_call fmt) (analyze_loop E op td fmt ("." ++ fmt) sm su sl todo acc).
Proof.
  intros Hs. revert acc; induction todo as [|[i p] rest IH]; intros acc; simpl.
  - apply keeps_ret.
  - apply keeps_bind; [apply analyze_one_format, Hs|intros; apply IH].
Qed.

(** X12: in [extract_and_analyze] with an output format other than
    "sqlite", every decoder call (MFT, UsnJrnl and LogFile alike) writes
    that format to a path ending in "." followed by the format. *)
Theorem extract_and_analyze_format_paths (E : env) (w : world) (img od fmt : string)
    (partition : option Z) (skip_mft skip_usnjrnl skip_logfile keep_temp : bool) :
  fmt <> "sqlite" ->
  Forall (format_run_call fmt) (w_calls w) ->
  Forall (format_run_call fmt)
    (w_calls (snd (extract_and_analyze E img od fmt partition
                     skip_mft skip_usnjrnl skip_logfile keep_temp w))).
Proof.
  intros Hne. apply String.eqb_neq in Hne. revert w. unfold extract_and_analyze. cbv zeta.
  rewrite Hne. keep.
  all: apply analyze_loop_format, Hne.
Qed.

Lemma extract_and_analyze_format_paths_witness :
  "json" <> "sqlite" /\
  Forall (format_run_call "json")
    (w_calls (snd (extract_and_analyze demo_env "disk.E01" "out" "json" None
                     false false false false demo_world))).
Proof.
  split; [discriminate|].
  apply extract_and_analyze_format_paths; [discriminate|constructor].
Defined.

Lemma file_exists_add (q p : string) (w : world) :
  file_exists (add_file q w) p = file_exists w p || String.eqb (norm_path p) q.
Proof.
  unfold file_exists, add_file. cbn [w_files].
  destruct (existsb (String.eqb q) (w_files w)) eqn:Hq.
  - destruct (String.eqb (norm_path p) q) eqn:Hpq; [|now rewrite orb_false_r].
    apply String.eqb_eq in Hpq. subst q. rewrite Hq. reflexivity.
  - rewrite existsb_app. simpl. now rewrite orb_false_r.
Qed.

Lemma file_exists_log (c : call) (p : string) (w : world) :
  file_exists (log_call c w) p = file_exists w p.
Proof. reflexivity. Qed.

Lemma pjoin_part_norm (d : string) (i : Z) (s : string) :
  norm_path (pjoin d (part_name i s)) = pjoin d (part_name i s).
Proof.
  unfold norm_path. destruct (String.eqb (pjoin d (part_name i s)) "") eqn:H; [|reflexivity].
  apply String.eqb_eq in H. unfold pjoin, part_name in H.
  destruct (String.eqb (norm_path d) "."); [discriminate H|].
  destruct (norm_path d); discriminate H.
Qed.

Lemma usn_mft_temp_distinct (d : string) (i : Z) :
  String.eqb (pjoin d (part_name i "_MFT")) (pjoin d (part_name i "_UsnJrnl_J")) = false.
Proof.
  apply String.eqb_neq. intros H. apply pjoin_inj in H. unfold part_name in H.
  apply str_app_cancel, str_app_cancel in H. discriminate H.
Qed.

Lemma analyze_mft_step_mft_file (E : env) (op fmt ext : string) (sm : bool) (i : Z)
    (p : Partition) (mt : string) (a0 : pydict) (w : world) :
  extractor_returns E -> norm_path mt = mt ->
  exists a w', analyze_mft_step E op fmt ext sm i p mt a0 w = (Ok a, w') /\
    w_denied w' = w_denied w /\
    (sm = false -> file_exists w' mt = extracted E (CExtract p MFT_art mt None) || file_exists w mt).
Proof.
  intros [_ Hx] Hn. unfold analyze_mft_step.
  destruct sm. { exists a0, w. split; [reflexivity|]. split; [reflexivity|]. discriminate. }
  destruct (Hx p MFT_art mt None) as [v Hv]. cbv zeta.
  rewrite (bind_invoke_ok _ _ _ _ _ Hv). unfold extracted. rewrite Hv. cbn [call_effect].
  destruct (truthy v).
  - unfold try_except, bind, invoke.
    destruct (e_call E (CParseMFT mt (pjoin op (part_name i ("_MFT" ++ ext))) true fmt true));
      cbn [call_effect]; eexists _, _; (split; [reflexivity|]); split; try reflexivity; intros _;
      rewrite ?file_exists_add, ?file_exists_log, ?file_exists_add, Hn, String.eqb_refl;
      rewrite ?orb_true_r; reflexivity.
  - exists a0, (log_call (CExtract p MFT_art mt None) w). repeat split.
Qed.

Lemma analyze_usnjrnl_step_mft_path (E : env) (op td fmt ext : string) (sm : bool) (i : Z)
    (p : Partition) (a1 : pydict) (w : world) (v : pyval) :
  let mt := pjoin td (part_name i "_MFT") in
  let ut := pjoin td (part_name i "_UsnJrnl_J") in
  w_denied w = [] ->
  e_call E (CExtract p UsnJrnl_art ut None) = Ok v -> truthy v = true ->
  exists a2 w', analyze_usnjrnl_step E op td fmt ext sm false i p mt a1 w = (Ok a2, w') /\
    w_denied w' = w_denied w /\
    In (CParseUsn ut (pjoin op (part_name i ("_UsnJrnl" ++ ext)))
                  (if sm then None else if file_exists w mt then Some mt else None) fmt
                  (truthy_opt (if sm then None else if file_exists w mt then Some mt else None)))
       (w_calls w').
Proof.
  intros mt ut Hd Hv Ht. unfold analyze_usnjrnl_step. cbv zeta.
  rewrite (bind_invoke_ok _ _ _ _ _ Hv). cbn [call_effect]. rewrite Ht. unfold try_except.
  destruct sm.
  - rewrite bind_ret_l. cbv beta iota.
    match goal with |- context [invoke E (CParseUsn ?a ?b ?c ?d ?e)] =>
      destruct (e_call E (CParseUsn a b c d e)) eqn:He end;
      unfold bind, invoke; rewrite He; cbn [call_effect];
      (eexists _, _; split; [reflexivity|]); split; try reflexivity;
      simpl; rewrite !in_app_iff; simpl; auto.
  - rewrite bind_exists_ok by exact Hd.
    rewrite file_exists_add, file_exists_log. subst mt ut.
    rewrite pjoin_part_norm, usn_mft_temp_distinct, orb_false_r.
    destruct (file_exists w (pjoin td (part_name i "_MFT"))); cbv beta iota;
    match goal with |- context [invoke E (CParseUsn ?a ?b ?c ?d ?e)] =>
      destruct (e_call E (CParseUsn a b c d e)) eqn:He end;
      unfold bind, invoke; rewrite He; cbn [call_effect];
      (eexists _, _; split; [reflexivity|]); split; try reflexivity;
      simpl; rewrite !in_app_iff; simpl; auto.
Qed.

Lemma analyze_logfile_step_extends (E : env) (op td fmt ext : string) (sl : bool) (i : Z)
    (p : Partition) (a2 : pydict) (w : world) :
  extractor_returns E ->
  exists a3 w', analyze_logfile_step E op td fmt ext sl i p a2 w = (Ok a3, w') /\
    exists l, w_calls w' = (w_calls w ++ l)%list.
Proof.
  intros [_ Hx]. unfold analyze_logfile_step.
  destruct sl. { exists a2, w. split; [reflexivity|]. exists []. now rewrite app_nil_r. }
  cbv zeta.
  match goal with |- context [invoke E (CExtract p LogFile_art ?d None)] =>
    destruct (Hx p LogFile_art d None) as [v Hv] end.
  rewrite (bind_invoke_ok _ _ _ _ _ Hv). cbn [call_effect].
  destruct (truthy v).
  - unfold try_except.
    match goal with |- context [invoke E (CParseLog ?a ?b ?c)] =>
      destruct (e_call E (CParseLog a b c)) eqn:He end;
      unfold bind, invoke; rewrite He; cbn [call_effect];
      (eexists _, _; split; [reflexivity|]); simpl; eexists; rewrite <- !app_assoc; reflexivity.
  - eexists _, _; split; [reflexivity|]. simpl. eexists; reflexivity.
Qed.

(** X13: in a partition iteration of [extract_and_analyze] whose
    UsnJrnl is extracted, the journal decoder is given the partition's
    temporary $MFT path (and [include_path=bool(mft_path)]) exactly when
    MFT is not skipped and that file exists: either its extraction in this
    iteration succeeded, or a file of that name was already there.
    Otherwise it gets [mft_path=None] and [include_path=False]. *)
Theorem usnjrnl_decoder_gets_partition_mft (E : env) (w : world) (op td fmt ext : string)
    (skip_mft skip_logfile : bool) (i : Z) (p : Partition)
    (Hx : extractor_returns E) (Hd : w_denied w = [])
    (Hu : extracted E (CExtract p UsnJrnl_art (pjoin td (part_name i "_UsnJrnl_J")) None) = true) :
  let mt := pjoin td (part_name i "_MFT") in
  let m := if skip_mft then None
           else if extracted E (CExtract p MFT_art mt None) || file_exists w mt
                then Some mt else None in
  exists v w', analyze_one E op td fmt ext skip_mft false skip_logfile i p w = (Ok v, w') /\
    In (CParseUsn (pjoin td (part_name i "_UsnJrnl_J")) (pjoin op (part_name i ("_UsnJrnl" ++ ext)))
                  m fmt (truthy_opt m))
       (w_calls w').
Proof.
  cbv zeta. pose proof Hx as [Hc Hy]. destruct (Hc p) as [v0 H0].
  unfold analyze_one. rewrite (bind_invoke_ok _ _ _ _ _ H0). cbn [call_effect]. cbv zeta.
  destruct (analyze_mft_step_mft_file E op fmt ext skip_mft i p (pjoin td (part_name i "_MFT")) []
              (log_call (CExtractor p) w) Hx (pjoin_part_norm td i "_MFT"))
    as (a1 & w2 & Hm & Hd2 & Hf2).
  rewrite (bind_ok _ _ _ _ _ Hm).
  destruct (Hy p UsnJrnl_art (pjoin td (part_name i "_UsnJrnl_J")) None) as [v Hv].
  unfold extracted in Hu. rewrite Hv in Hu.
  destruct (analyze_usnjrnl_step_mft_path E op td fmt ext skip_mft i p a1 w2 v
              ltac:(rewrite Hd2; exact Hd) Hv Hu) as (a2 & w3 & Hs & Hd3 & Hin).
  rewrite (bind_ok _ _ _ _ _ Hs).
  destruct (analyze_logfile_step_extends E op td fmt ext skip_logfile i p a2 w3 Hx)
    as (a3 & w4 & Hl & l & Hcl).
  rewrite (bind_ok _ _ _ _ _ Hl).
  eexists _, _. split; [reflexivity|]. rewrite Hcl. apply in_or_app. left.
  destruct skip_mft; [exact Hin|].
  rewrite (Hf2 eq_refl), file_exists_log in Hin. exact Hin.
Qed.

Lemma usnjrnl_decoder_gets_partition_mft_witness :
  exists v w', analyze_one demo_env "out" "out/temp_extracted" "csv" ".csv" false false false 0
                 (mkPartition 1048576 4096) demo_world = (Ok v, w') /\
    In (CParseUsn "out/temp_extracted/partition0_UsnJrnl_J" "out/partition0_UsnJrnl.csv"
                  (Some "out/temp_extracted/partition0_MFT") "csv" true)
       (w_calls w').
Proof.
  exact (usnjrnl_decoder_gets_partition_mft demo_env demo_world "out" "out/temp_extracted" "csv"
           ".csv" false false 0 (mkPartition 1048576 4096)
           (conj (fun _ => ex_intro _ VNone eq_refl) (fun _ _ _ _ => ex_intro _ (VBool true) eq_refl))
           eq_refl eq_refl).
Defined.

Lemma bind_import_raise {A} (E : env) (m : string) (e : exn) (k : unit -> M A) (w : world) :
  e_import E m = Some e -> bind (py_import E m) k w = (Raise e, w).
Proof. intros H. unfold bind, py_import. rewrite H. reflexivity. Qed.

(** X14: the imports of every tool run before its [try], so a failing
    import is not turned into an error dict: the tool raises the import's
    exception and has made no call.  [extract_and_analyze] imports the
    image handler and all three decoders in that order, whatever its skip
    flags, and raises the exception of the first one that fails. *)
Theorem tools_import_failure_raises (E : env) (w : world) (e : exn) :
  (e_import E "mft_parser" = Some e ->
     forall i o f a p, parse_mft E i o f a p w = (Raise e, w)) /\
  (e_import E "usnjrnl_parser" = Some e ->
     forall i o f m, parse_usnjrnl E i o f m w = (Raise e, w)) /\
  (e_import E "logfile_parser" = Some e ->
     forall i o f, parse_logfile E i o f w = (Raise e, w)) /\
  (e_import E "image_handler" = Some e ->
     forall img od part v, extract_from_image E img od part v w = (Raise e, w)) /\
  (e_import E "analyzer" = Some e ->
     forall od f m u l, analyze_artifacts E od f m u l w = (Raise e, w)) /\
  (forall pre m post, ["image_handler"; "mft_parser"; "usnjrnl_parser"; "logfile_parser"]
                      = (pre ++ m :: post)%list ->
     Forall (fun m' => e_import E m' = None) pre -> e_import E m = Some e ->
     forall img od f part s1 s2 s3 kt,
       extract_and_analyze E img od f part s1 s2 s3 kt w = (Raise e, w)).
Proof.
  split; [|split; [|split; [|split; [|split]]]].
  - intros H i o f a p. unfold parse_mft. now apply bind_import_raise.
  - intros H i o f m. unfold parse_usnjrnl. now apply bind_import_raise.
  - intros H i o f. unfold parse_logfile. now apply bind_import_raise.
  - intros H img od part v. unfold extract_from_image. now apply bind_import_raise.
  - intros H od f m u l. unfold analyze_artifacts. now apply bind_import_raise.
  - intros pre m post Hl Hpre H img od f part s1 s2 s3 kt. unfold extract_and_analyze.
    destruct pre as [|m1 [|m2 [|m3 [|m4 pre]]]]; simpl in Hl; injection Hl as Hl;
      repeat match type of Hl with _ /\ _ => destruct Hl as [<- Hl] end;
      try subst m; try (destruct pre; discriminate);
      repeat match goal with Hf : Forall _ (_ :: _) |- _ => inversion Hf; subst; clear Hf end;
      repeat (rewrite bind_import_ok by assumption);
      now apply bind_import_raise.
Qed.

Lemma tools_import_failure_raises_witness :
  extract_and_analyze
    (mkEnv (fun m => if String.eqb m "image_handler" then None
                     else Some (ImportError ("No module named 'src." ++ m ++ "'")))
           (e_call demo_env) (e_partitions demo_env) (e_contents demo_env) (e_elapsed demo_env))
    "disk.E01" "out" "csv" None true true true false demo_world
  = (Raise (ImportError "No module named 'src.mft_parser'"), demo_world).
Proof.
  apply (proj2 (proj2 (proj2 (proj2 (proj2 (tools_import_failure_raises _ demo_world
           (ImportError "No module named 'src.mft_parser'"))))))
           ["image_handler"] "mft_parser" ["usnjrnl_parser"; "logfile_parser"]);
    [reflexivity | repeat constructor | reflexivity].
Defined.

(** X15: the checks of the two image tools, made before any directory is
    created or the image is opened: a missing image is reported first, as
    "Image file not found" (by [extract_and_analyze] whatever its format
    argument); [extract_and_analyze] then rejects a format outside csv,
    json and sqlite with "Invalid format". Either failure leaves the state
    as it was. *)
Theorem image_tools_validation_order (E : env) (w : world) (img od : string)
    (Hi : forall m, e_import E m = None) (Hd : w_denied w = []) :
  (file_exists w img = false ->
     (forall part verbose, extract_from_image E img od part verbose w
        = (Ok (failure ("Image file not found: " ++ img)), w)) /\
     (forall fmt part s1 s2 s3 kt, extract_and_analyze E img od fmt part s1 s2 s3 kt w
        = (Ok (failure ("Image file not found: " ++ img)), w))) /\
  (file_exists w img = true ->
     forall fmt part s1 s2 s3 kt, in_formats fmt mft_formats = false ->
       extract_and_analyze E img od fmt part s1 s2 s3 kt w
       = (Ok (failure ("Invalid format: " ++ fmt)), w)).
Proof.
  split.
  - intros Hex. split.
    + intros part verbose. unfold extract_from_image.
      rewrite bind_import_ok by apply Hi. rewrite bind_exists_ok by exact Hd.
      rewrite Hex. reflexivity.
    + intros fmt part s1 s2 s3 kt. unfold extract_and_analyze.
      rewrite !bind_import_ok by apply Hi. rewrite bind_exists_ok by exact Hd.
      rewrite Hex. reflexivity.
  - intros Hex fmt part s1 s2 s3 kt Hf. unfold extract_and_analyze.
    rewrite !bind_import_ok by apply Hi. rewrite bind_exists_ok by exact Hd.
    rewrite Hex. cbn [negb]. rewrite Hf. reflexivity.
Qed.

Lemma image_tools_validation_order_witness :
  extract_and_analyze demo_env "missing.E01" "out" "xml" None false false false false demo_world
  = (Ok (failure ("Image file not found: " ++ "missing.E01")), demo_world).
Proof.
  apply (proj2 (proj1 (image_tools_validation_order demo_env demo_world "missing.E01" "out"
                         (fun _ => eq_refl) eq_refl) eq_refl)).
Defined.

(** X16: the formats [get_info] advertises under "supported_formats" are
    exactly the ones the format checks of [parse_mft], [parse_usnjrnl],
    [extract_and_analyze] and [analyze_artifacts] accept; [parse_logfile]
    accepts all of them except "sqlite". *)
Theorem get_info_formats_match_checks (l : list pyval) :
  dget "supported_formats" get_info = Some (VList l) ->
  (forall f, In (VStr f) l <-> in_formats f mft_formats = true) /\
  (forall f, in_formats f logfile_formats = true <-> In (VStr f) l /\ f <> "sqlite").
Proof.
  intros H. cbn in H. injection H as <-. unfold in_formats, mft_formats, logfile_formats.
  split; intros f; simpl.
  - split.
    + intros [H|[H|[H|[]]]]; injection H as <-; reflexivity.
    + destruct (String.eqb_spec f "csv") as [->|_]; [auto|].
      destruct (String.eqb_spec f "json") as [->|_]; [auto|].
      destruct (String.eqb_spec f "sqlite") as [->|_]; [auto|]. discriminate.
  - split.
    + destruct (String.eqb_spec f "csv") as [->|_]; [split; [auto|discriminate]|].
      destruct (String.eqb_spec f "json") as [->|_]; [split; [auto|discriminate]|].
      discriminate.
    + intros [[H|[H|[H|[]]]] Hs]; injection H as <-; [reflexivity|reflexivity|].
      exfalso. apply Hs. reflexivity.
Qed.

Lemma get_info_formats_match_checks_witness :
  dget "supported_formats" get_info
  = Some (VList [VStr "csv"; VStr "json"; VStr "sqlite"]) /\
  in_formats "sqlite" logfile_formats = false.
Proof.
  split; [reflexivity|].
  destruct (in_formats "sqlite" logfile_formats) eqn:H; [|reflexivity].
  apply (get_info_formats_match_checks [VStr "csv"; VStr "json"; VStr "sqlite"] eq_refl) in H.
  destruct H as [_ H]. exfalso. apply H. reflexivity.
Defined.

Lemma check_inputs_result (w : world) (l : list (option string * string)) :
  w_denied w = [] ->
  (check_inputs l w = (Ok None, w) /\ forall o name, In (o, name) l -> supplied_found w o = true) \/
  (exists p name, In (Some p, name) l /\ p <> "" /\ file_exists w p = false /\
     check_inputs l w = (Ok (Some (name ++ " file not found: " ++ p)), w)).
Proof.
  intros Hd. induction l as [|[o name] l IH].
  - left. split; [reflexivity|]. intros o name [].
  - destruct (supplied_found w o) eqn:Hs.
    + rewrite (check_inputs_found w o name l Hd Hs).
      destruct IH as [[Hc Hall] | (p & nm & Hin & Hne & Hnf & Hc)].
      * left. split; [exact Hc|]. intros o' nm' [Heq|Hin]; [injection Heq as <- <-; exact Hs|eauto].
      * right. exists p, nm. repeat split; auto. right; exact Hin.
    + destruct o as [p|]; [|discriminate]. simpl in Hs. apply orb_false_iff in Hs as [Hp Hf].
      apply String.eqb_neq in Hp. right. exists p, name.
      repeat split; auto; [left; reflexivity|]. apply check_inputs_missing; auto.
Qed.

Lemma analyze_artifacts_truthy_cases (E : env) (w : world) (od fmt : string)
    (mft usn log : option string) :
  e_import E "analyzer" = None -> w_denied w = [] ->
  truthy_opt mft || truthy_opt usn || truthy_opt log = true ->
  (exists p name, In (Some p, name) [(mft, "MFT"); (usn, "UsnJrnl"); (log, "LogFile")] /\
     p <> "" /\ file_exists w p = false /\
     analyze_artifacts E od fmt mft usn log w
     = (Ok (failure (name ++ " file not found: " ++ p)), w)) \/
  (in_formats fmt mft_formats = false /\
     (forall o, In o [mft; usn; log] -> supplied_found w o = true) /\
     analyze_artifacts E od fmt mft usn log w = (Ok (failure ("Invalid format: " ++ fmt)), w)) \/
  (in_formats fmt mft_formats = true /\
   (forall o, In o [mft; usn; log] -> supplied_found w o = true) /\
   ((exists e, e_call E (CAnalyzer od) = Raise e /\
       analyze_artifacts E od fmt mft usn log w
       = (Ok (failure (exn_str e)), log_call (CAnalyzer od) w)) \/
    (exists v e, e_call E (CAnalyzer od) = Ok v /\ e_call E (CAnalyzeAll mft log usn fmt) = Raise e /\
       analyze_artifacts E od fmt mft usn log w
       = (Ok (failure (exn_str e)),
          log_call (CAnalyzeAll mft log usn fmt) (log_call (CAnalyzer od) w))) \/
    (exists v r, e_call E (CAnalyzer od) = Ok v /\ e_call E (CAnalyzeAll mft log usn fmt) = Ok r /\
       analyze_artifacts E od fmt mft usn log w
       = (Ok [("success", VBool true); ("elapsed_seconds", VFloat (e_elapsed E));
              ("output_path", r); ("format", VStr fmt);
              ("inputs", VDict [("mft", opt_val mft); ("usnjrnl", opt_val usn);
                                ("logfile", opt_val log)])],
          log_call (CAnalyzeAll mft log usn fmt) (log_call (CAnalyzer od) w))))).
Proof.
  intros Hi Hd Ht. unfold analyze_artifacts. rewrite bind_import_ok by exact Hi.
  rewrite Ht. cbn [negb].
  destruct (check_inputs_result w [(mft, "MFT"); (usn, "UsnJrnl"); (log, "LogFile")] Hd)
    as [[Hc Hall] | (p & name & Hin & Hne & Hnf & Hc)];
    rewrite (bind_ok _ _ _ _ _ Hc).
  2: { left. exists p, name. auto. }
  assert (Hall' : forall o, In o [mft; usn; log] -> supplied_found w o = true).
  { intros o [<-|[<-|[<-|[]]]]; eapply Hall; simpl; eauto. }
  right. destruct (in_formats fmt mft_formats) eqn:Hf; cbn [negb].
  2: { left. auto. }
  right. split; [reflexivity|]. split; [exact Hall'|].
  unfold try_except, bind, invoke.
  destruct (e_call E (CAnalyzer od)) as [v|e] eqn:H1.
  - cbn [call_effect]. destruct (e_call E (CAnalyzeAll mft log usn fmt)) as [r|e] eqn:H2.
    + right; right. exists v, r. repeat split; auto.
    + right; left. exists v, e. repeat split; auto.
  - left. exists e. auto.
Qed.

(** C1 (amended): [analyze_artifacts] fails with the "at least one input"
    error exactly when none of the three paths is truthy (each is [None] or
    empty).  Otherwise that check passes and absent inputs are passed on as
    [None]: a supplied path that does not exist fails the call, a format
    outside csv, json and sqlite fails it with "Invalid format", and once
    every supplied path exists and the format is accepted the call
    succeeds exactly when the unified analyzer does.  With a truthy input
    the "at least one input" failure is never returned by the check: that
    text could only come back as the message of an exception raised by
    the analyzer. *)
Theorem analyze_artifacts_input_requirement (E : env) (w : world)
    (output_dir fmt : string) (mft usn log : option string)
    (Hi : e_import E "analyzer" = None) (Hd : w_denied w = []) :
  (truthy_opt mft = false /\ truthy_opt usn = false /\ truthy_opt log = false ->
     analyze_artifacts E output_dir fmt mft usn log w
     = (Ok (failure "At least one input file required (mft_path, usnjrnl_path, or logfile_path)"), w)) /\
  (truthy_opt mft || truthy_opt usn || truthy_opt log = true ->
     (exists p, (mft = Some p \/ usn = Some p \/ log = Some p) /\ p <> "" /\ file_exists w p = false) ->
     rejected (analyze_artifacts E output_dir fmt mft usn log w) w) /\
  (truthy_opt mft || truthy_opt usn || truthy_opt log = true ->
     supplied_found w mft = true -> supplied_found w usn = true -> supplied_found w log = true ->
     in_formats fmt mft_formats = true ->
     exists d, fst (analyze_artifacts E output_dir fmt mft usn log w) = Ok d /\
       (dget "success" d = Some (VBool true) <->
        exists v1 v2, e_call E (CAnalyzer output_dir) = Ok v1 /\
                      e_call E (CAnalyzeAll mft log usn fmt) = Ok v2)) /\
  (truthy_opt mft || truthy_opt usn || truthy_opt log = true ->
     supplied_found w mft = true -> supplied_found w usn = true -> supplied_found w log = true ->
     in_formats fmt mft_formats = false ->
     analyze_artifacts E output_dir fmt mft usn log w
     = (Ok (failure ("Invalid format: " ++ fmt)), w)) /\
  (truthy_opt mft || truthy_opt usn || truthy_opt log = true ->
     analyze_artifacts E output_dir fmt mft usn log w
     <> (Ok (failure "At least one input file required (mft_path, usnjrnl_path, or logfile_path)"), w) /\
     (fst (analyze_artifacts E output_dir fmt mft usn log w)
        = Ok (failure "At least one input file required (mft_path, usnjrnl_path, or logfile_path)") ->
      exists e, (e_call E (CAnalyzer output_dir) = Raise e \/
                 e_call E (CAnalyzeAll mft log usn fmt) = Raise e) /\
                exn_str e = "At least one input file required (mft_path, usnjrnl_path, or logfile_path)")).

Proof.
  split; [|split; [|split; [|split]]].
  - intros (H1 & H2 & H3). unfold analyze_artifacts.
    rewrite bind_import_ok by exact Hi. rewrite H1, H2, H3. reflexivity.
  - intros Ht (p & Hp & Hne & Hnf).
    destruct (analyze_artifacts_truthy_cases E w output_dir fmt mft usn log Hi Hd Ht)
      as [(q & name & _ & _ & _ & Hr) | [(_ & _ & Hr) | (_ & Hall & _)]].
    + exists (name ++ " file not found: " ++ q). exact Hr.
    + exists ("Invalid format: " ++ fmt). exact Hr.
    + exfalso. destruct Hp as [ -> | [ -> | -> ] ];
        [pose proof (Hall _ (or_introl eq_refl)) as Hs
        |pose proof (Hall _ (or_intror (or_introl eq_refl))) as Hs
        |pose proof (Hall _ (or_intror (or_intror (or_introl eq_refl)))) as Hs];
        simpl in Hs; apply String.eqb_neq in Hne; rewrite Hne, Hnf in Hs; discriminate.
  - intros Ht H1 H2 H3 Hf.
    destruct (analyze_artifacts_truthy_cases E w output_dir fmt mft usn log Hi Hd Ht)
      as [(q & name & Hin & Hne & Hnf & _) | [(Hf' & _ & _) | (_ & _ & Hr)]].
    + exfalso. apply String.eqb_neq in Hne.
      simpl in Hin; destruct Hin as [Hin|[Hin|[Hin|[]]]]; injection Hin as Hq Hn; subst;
        [simpl in H1; rewrite Hne, Hnf in H1|simpl in H2; rewrite Hne, Hnf in H2
        |simpl in H3; rewrite Hne, Hnf in H3]; discriminate.
    + congruence.
    + destruct Hr as [(e & He & Hr) | [(v & e & H4 & He & Hr) | (v & r & H4 & H5 & Hr)]];
        rewrite Hr; (eexists; split; [reflexivity|]); simpl;
        (split; [intros Hs; try discriminate|intros (v1 & v2 & E1 & E2); try congruence]);
        eauto.
  - intros Ht H1 H2 H3 Hf.
    destruct (analyze_artifacts_truthy_cases E w output_dir fmt mft usn log Hi Hd Ht)
      as [(q & name & Hin & Hne & Hnf & _) | [(_ & _ & Hr) | (Hf' & _ & _)]].
    + exfalso. apply String.eqb_neq in Hne.
      simpl in Hin; destruct Hin as [Hin|[Hin|[Hin|[]]]]; injection Hin as Hq Hn; subst;
        [simpl in H1; rewrite Hne, Hnf in H1|simpl in H2; rewrite Hne, Hnf in H2
        |simpl in H3; rewrite Hne, Hnf in H3]; discriminate.
    + exact Hr.
    + congruence.
  - intros Ht.
    destruct (analyze_artifacts_truthy_cases E w output_dir fmt mft usn log Hi Hd Ht)
      as [(q & name & Hin & _ & _ & Hr) | [(_ & _ & Hr) | (_ & _ & Hr)]].
    + rewrite Hr. simpl in Hin.
      split; [intros Heq|intros Heq; exfalso]; injection Heq as Heq;
        destruct Hin as [Hin|[Hin|[Hin|[]]]]; injection Hin as _ <-; discriminate Heq.
    + rewrite Hr. split; [intros Heq|intros Heq; exfalso]; injection Heq as Heq; discriminate Heq.
    + destruct Hr as [(e & He & Hr) | [(v & e & H4 & He & Hr) | (v & r & H4 & H5 & Hr)]];
        rewrite Hr; split.
      * intros Heq. apply (f_equal (fun x : res pydict * world => List.length (w_calls (snd x)))) in Heq.
        simpl in Heq. rewrite length_app in Heq. simpl in Heq. lia.
      * intros Heq. simpl in Heq. injection Heq as Heq. exists e. auto.
      * intros Heq. apply (f_equal (fun x : res pydict * world => List.length (w_calls (snd x)))) in Heq.
        simpl in Heq. rewrite !length_app in Heq. simpl in Heq. lia.
      * intros Heq. simpl in Heq. injection Heq as Heq. exists e. auto.
      * intros Heq. apply (f_equal (fun x : res pydict * world => List.length (w_calls (snd x)))) in Heq.
        simpl in Heq. rewrite !length_app in Heq. simpl in Heq. lia.
      * intros Heq. simpl in Heq. discriminate Heq.
Qed.

Lemma analyze_artifacts_input_requirement_witness :
  exists d, fst (analyze_artifacts demo_env "out" "csv" (Some "MFT") None None demo_world) = Ok d /\
    dget "success" d = Some (VBool true).
Proof.
  destruct (proj1 (proj2 (proj2 (analyze_artifacts_input_requirement demo_env demo_world "out" "csv"
                            (Some "MFT") None None eq_refl eq_refl)))
              eq_refl eq_refl eq_refl eq_refl eq_refl) as (d & Hd & Hiff).
  exists d. split; [exact Hd|]. apply Hiff.
  exists VNone, (VStr "out/timeline.csv"). split; reflexivity.
Defined.
